(** * whatisthegovtsaying: the site's data readers, constants and OG routes

    A shallow embedding of the TypeScript sources of the static site
    ([src/lib/digest.ts], [src/lib/constants.ts], [src/lib/og.ts] and the two
    OG image routes) and the properties of them that the specification
    states.

    Conventions.
    - A JavaScript string is the list of its UTF-16 code units ([jsstring]);
      [length] and [slice] count code units, as in the language.
    - A TEXT value of the SQLite store is the byte string SQLite keeps and
      compares (Rocq's [string]); the default BINARY collation is the
      byte-wise order [String.compare].
    - An INTEGER column and a JavaScript integer are in [Z].
    - Code that touches the store, the font cache, the network or the image
      libraries runs in the monad [M], which threads a [World]. *)

From Stdlib Require Import ZArith QArith Ascii String List Lia.
From stdpp Require Import base option list sorting strings gmap.

Local Open Scope Z_scope.

(** ** JavaScript strings *)

Module Js.

Definition jsstring : Type := list N.

(** An ASCII literal of the source as a JavaScript string. *)
Definition js (s : string) : jsstring :=
  map N_of_ascii (list_ascii_of_string s).

(** A code point escape [\u{...}] of a string literal: one code unit in
    the basic plane, a surrogate pair above it. *)
Definition utf16_of_code_point (cp : N) : jsstring :=
  if (cp <? 65536)%N then [cp]
  else let c := (cp - 65536)%N in
       [(55296 + c / 1024)%N; (56320 + c mod 1024)%N].

Definition from_code_points (cps : list N) : jsstring :=
  concat (map utf16_of_code_point cps).

(** [s.length] *)
Definition jslength (s : jsstring) : Z := Z.of_nat (length s).

(** Relative index of [String.prototype.slice]: negative counts from the
    end, everything is clamped to [0 .. len]. *)
Definition clamp_index (len i : Z) : Z :=
  if i <? 0 then Z.max (len + i) 0 else Z.min i len.

(** [s.slice(start, end)] *)
Definition slice (s : jsstring) (start end_ : Z) : jsstring :=
  let len := jslength s in
  let from := clamp_index len start in
  let to := clamp_index len end_ in
  take (Z.to_nat (to - from)) (drop (Z.to_nat from) s).

(** [a || b] where [a] may also be null. *)
Definition or_else_null (a : option jsstring) (b : jsstring) : jsstring :=
  match a with
  | Some [] | None => b
  | Some s => s
  end.

(** What a call ends in: a value, or an exception. *)
Inductive Error :=
| SqliteError (msg : string)
| TypeError (msg : string)
| RangeError (msg : string).

Inductive outcome (A : Type) :=
| Returned (a : A)
| Thrown (e : Error).
Arguments Returned {A} a.
Arguments Thrown {A} e.

End Js.

(** ** The Date object, as lib/constants.ts uses it

    Time values are milliseconds since the epoch, [None] is NaN. The day
    and year arithmetic is that of the ECMAScript standard (Day,
    DayFromYear, MonthFromTime, DateFromTime, MakeDay, MakeDate, TimeClip). *)

Module JsDate.
Import Js.

Definition msPerDay : Z := 86400000.
Definition msPerHour : Z := 3600000.
Definition msPerMinute : Z := 60000.
Definition msPerSecond : Z := 1000.

Definition Day (t : Z) : Z := t / msPerDay.
Definition TimeWithinDay (t : Z) : Z := t mod msPerDay.

Definition DaysInYear (y : Z) : Z :=
  if negb (y mod 4 =? 0) then 365
  else if negb (y mod 100 =? 0) then 366
  else if negb (y mod 400 =? 0) then 365
  else 366.

Definition DayFromYear (y : Z) : Z :=
  365 * (y - 1970) + (y - 1969) / 4 - (y - 1901) / 100 + (y - 1601) / 400.

Definition TimeFromYear (y : Z) : Z := msPerDay * DayFromYear y.

(** The largest [y] with [TimeFromYear y <= t]: a first guess from the
    mean length of a year, moved by at most one year. *)
Definition YearFromTime (t : Z) : Z :=
  let d := Day t in
  let y := 1970 + (400 * d) / 146097 in
  if DayFromYear y >? d then y - 1
  else if DayFromYear (y + 1) <=? d then y + 1
  else y.

(** 1 in a leap year, 0 otherwise. *)
Definition InLeapYear (t : Z) : Z :=
  if DaysInYear (YearFromTime t) =? 366 then 1 else 0.

Definition DayWithinYear (t : Z) : Z := Day t - DayFromYear (YearFromTime t).

Definition MonthFromTime (t : Z) : Z :=
  let d := DayWithinYear t in
  let leap := InLeapYear t in
  if d <? 31 then 0
  else if d <? 59 + leap then 1
  else if d <? 90 + leap then 2
  else if d <? 120 + leap then 3
  else if d <? 151 + leap then 4
  else if d <? 181 + leap then 5
  else if d <? 212 + leap then 6
  else if d <? 243 + leap then 7
  else if d <? 273 + leap then 8
  else if d <? 304 + leap then 9
  else if d <? 334 + leap then 10
  else 11.

Definition DateFromTime (t : Z) : Z :=
  let d := DayWithinYear t in
  let leap := InLeapYear t in
  match MonthFromTime t with
  | 0 => d + 1
  | 1 => d - 30
  | 2 => d - 58 - leap
  | 3 => d - 89 - leap
  | 4 => d - 119 - leap
  | 5 => d - 150 - leap
  | 6 => d - 180 - leap
  | 7 => d - 211 - leap
  | 8 => d - 242 - leap
  | 9 => d - 272 - leap
  | 10 => d - 303 - leap
  | _ => d - 333 - leap
  end.

Definition HourFromTime (t : Z) : Z := (t / msPerHour) mod 24.
Definition MinFromTime (t : Z) : Z := (t / msPerMinute) mod 60.
Definition SecFromTime (t : Z) : Z := (t / msPerSecond) mod 60.
Definition msFromTime (t : Z) : Z := t mod msPerSecond.

Definition MakeTime (hour min sec ms : Z) : Z :=
  hour * msPerHour + min * msPerMinute + sec * msPerSecond + ms.

(** Day number of the first day of month [mn] (0-based) in a year that is
    leap ([leap] = 1) or not. *)
Definition month_start (mn leap : Z) : Z :=
  match mn with
  | 0 => 0
  | 1 => 31
  | 2 => 59 + leap
  | 3 => 90 + leap
  | 4 => 120 + leap
  | 5 => 151 + leap
  | 6 => 181 + leap
  | 7 => 212 + leap
  | 8 => 243 + leap
  | 9 => 273 + leap
  | 10 => 304 + leap
  | _ => 334 + leap
  end.

(** MakeDay: the day number of the first of the month, plus [date - 1];
    months outside 0..11 carry into the year. *)
Definition MakeDay (year month date : Z) : Z :=
  let ym := year + month / 12 in
  let mn := month mod 12 in
  let leap := if DaysInYear ym =? 366 then 1 else 0 in
  DayFromYear ym + month_start mn leap + date - 1.

Definition MakeDate (day time : Z) : Z := day * msPerDay + time.

Definition TimeClip (t : Z) : option Z :=
  if Z.abs t >? 8640000000000000 then None else Some t.

(** *** Reading the date-time string format *)

Definition digit (c : N) : option Z :=
  let z := Z.of_N c in
  if (48 <=? z) && (z <=? 57) then Some (z - 48) else None.

(** Exactly [n] decimal digits. *)
Fixpoint digits (n : nat) (acc : Z) (s : jsstring) : option (Z * jsstring) :=
  match n with
  | O => Some (acc, s)
  | S k =>
      match s with
      | c :: rest =>
          match digit c with
          | Some v => digits k (10 * acc + v) rest
          | None => None
          end
      | [] => None
      end
  end.

(** [YYYY], or a sign and six digits; minus zero is not a year. *)
Definition parse_year (s : jsstring) : option (Z * jsstring) :=
  match s with
  | c :: rest =>
      if (c =? 43)%N then digits 6 0 rest
      else if (c =? 45)%N then
        match digits 6 0 rest with
        | Some (y, rest') => if y =? 0 then None else Some (- y, rest')
        | None => None
        end
      else digits 4 0 s
  | [] => None
  end.

(** A two-digit field after the separator [sep], within [lo .. hi]. *)
Definition parse_field (sep : N) (lo hi : Z) (s : jsstring)
  : option (Z * jsstring) :=
  match s with
  | c :: rest =>
      if (c =? sep)%N then
        match digits 2 0 rest with
        | Some (v, rest') =>
            if (lo <=? v) && (v <=? hi) then Some (v, rest') else None
        | None => None
        end
      else None
  | [] => None
  end.

(** The date forms [YYYY], [YYYY-MM] and [YYYY-MM-DD]: year, month
    (1-based, default 1) and day (default 1). The day is checked against
    01..31 only, as Node does; a day past the end of its month rolls
    over in MakeDay. *)
Definition parse_date (s : jsstring) : option (Z * Z * Z * jsstring) :=
  match parse_year s with
  | None => None
  | Some (y, s1) =>
      match s1 with
      | 45%N :: _ =>
          match parse_field 45 1 12 s1 with
          | None => None
          | Some (m, s2) =>
              match s2 with
              | 45%N :: _ =>
                  match parse_field 45 1 31 s2 with
                  | None => None
                  | Some (d, s3) => Some (y, m, d, s3)
                  end
              | _ => Some (y, m, 1, s2)
              end
          end
      | _ => Some (y, 1, 1, s1)
      end
  end.

(** The time [THH:mm:ssZ]; 24:00:00 is the end of the day. *)
Definition parse_time_utc (s : jsstring) : option Z :=
  match parse_field 84 0 24 s with
  | None => None
  | Some (h, s1) =>
      match parse_field 58 0 59 s1 with
      | None => None
      | Some (mi, s2) =>
          match parse_field 58 0 59 s2 with
          | None => None
          | Some (se, s3) =>
              match s3 with
              | [90%N] =>
                  if (h =? 24) && negb ((mi =? 0) && (se =? 0)) then None
                  else Some (MakeTime h mi se 0)
              | _ => None
              end
          end
      end
  end.

(** [Date.parse] on a string that carries a UTC time. Both callers append
    ["T12:00:00Z"], so a string in the standard format is a date form
    followed by that time; any other string is an Invalid Date here (the
    standard leaves it to the engine). *)
Definition parse (s : jsstring) : option Z :=
  match parse_date s with
  | None => None
  | Some (y, m, d, rest) =>
      match parse_time_utc rest with
      | None => None
      | Some time => TimeClip (MakeDate (MakeDay y (m - 1) d) time)
      end
  end.

(** The object: its time value. *)
Record Date := { DateValue : option Z }.

(** [new Date(s)] *)
Definition new_Date (s : jsstring) : Date := {| DateValue := parse s |}.

(** [d.getUTCDate()]: a Number, NaN for an Invalid Date. *)
Definition getUTCDate (d : Date) : option Z :=
  match DateValue d with
  | None => None
  | Some t => Some (DateFromTime t)
  end.

(** [d.setUTCDate(date)]: the object after the call. *)
Definition setUTCDate (d : Date) (date : option Z) : Date :=
  match DateValue d, date with
  | Some t, Some dt =>
      {| DateValue :=
           TimeClip (MakeDate (MakeDay (YearFromTime t) (MonthFromTime t) dt)
                              (TimeWithinDay t)) |}
  | _, _ => {| DateValue := None |}
  end.

(** [a + b] and [a - b] on Numbers that are integers or NaN. *)
Definition num_add (a b : option Z) : option Z :=
  match a, b with Some x, Some y => Some (x + y) | _, _ => None end.

Definition num_sub (a b : option Z) : option Z :=
  match a, b with Some x, Some y => Some (x - y) | _, _ => None end.

Definition digit_char (v : Z) : N := Z.to_N (48 + v).

(** [n] decimal digits of [v], zero padded. *)
Fixpoint pad (n : nat) (v : Z) (acc : jsstring) : jsstring :=
  match n with
  | O => acc
  | S k => pad k (v / 10) (digit_char (v mod 10) :: acc)
  end.

(** The year of [toISOString]: four digits from 0 to 9999, otherwise a
    sign and six digits. *)
Definition year_string (y : Z) : jsstring :=
  if (0 <=? y) && (y <=? 9999) then pad 4 y []
  else if y <? 0 then 45%N :: pad 6 (- y) []
  else 43%N :: pad 6 y [].

(** [d.toISOString()]: [YYYY-MM-DDTHH:mm:ss.sssZ]; a RangeError for an
    Invalid Date. *)
Definition toISOString (d : Date) : outcome jsstring :=
  match DateValue d with
  | None => Thrown (RangeError "Invalid time value")
  | Some t =>
      Returned
        (year_string (YearFromTime t) ++ 45%N :: pad 2 (MonthFromTime t + 1)
           (45%N :: pad 2 (DateFromTime t)
              (84%N :: pad 2 (HourFromTime t)
                 (58%N :: pad 2 (MinFromTime t)
                    (58%N :: pad 2 (SecFromTime t)
                       (46%N :: pad 3 (msFromTime t) [90%N]))))))
  end.

End JsDate.

(** ** lib/constants.ts: the country tables *)

Module Constants.
Import Js.

(** The object literal of [COUNTRY_NAMES], in source order. *)
Definition COUNTRY_NAMES_entries : list (string * jsstring) :=
  [ ("AE", js "UAE"); ("AR", js "Argentina"); ("AU", js "Australia");
    ("BR", js "Brazil"); ("CA", js "Canada"); ("CH", js "Switzerland");
    ("CN", js "China"); ("DE", js "Germany"); ("ES", js "Spain");
    ("EU", js "European Union"); ("FR", js "France");
    ("GB", js "United Kingdom"); ("ID", js "Indonesia");
    ("IE", js "Ireland"); ("IN", js "India"); ("IT", js "Italy");
    ("JP", js "Japan"); ("KR", js "South Korea"); ("NG", js "Nigeria");
    ("NL", js "Netherlands"); ("NZ", js "New Zealand"); ("QA", js "Qatar");
    ("RU", js "Russia"); ("SG", js "Singapore"); ("TH", js "Thailand");
    ("TW", js "Taiwan"); ("UN", js "United Nations");
    ("US", js "United States"); ("VN", js "Vietnam"); ("WHO", js "WHO");
    ("ZA", js "South Africa") ]%string.

(** The object literal of [COUNTRY_FLAGS]: each value is written with
    code point escapes. *)
Definition COUNTRY_FLAGS_entries : list (string * jsstring) :=
  let flag := from_code_points in
  [ ("AE", flag [0x1F1E6; 0x1F1EA]); ("AR", flag [0x1F1E6; 0x1F1F7]);
    ("AU", flag [0x1F1E6; 0x1F1FA]); ("BR", flag [0x1F1E7; 0x1F1F7]);
    ("CA", flag [0x1F1E8; 0x1F1E6]); ("CH", flag [0x1F1E8; 0x1F1ED]);
    ("CN", flag [0x1F1E8; 0x1F1F3]); ("DE", flag [0x1F1E9; 0x1F1EA]);
    ("ES", flag [0x1F1EA; 0x1F1F8]); ("EU", flag [0x1F1EA; 0x1F1FA]);
    ("FR", flag [0x1F1EB; 0x1F1F7]); ("GB", flag [0x1F1EC; 0x1F1E7]);
    ("ID", flag [0x1F1EE; 0x1F1E9]); ("IE", flag [0x1F1EE; 0x1F1EA]);
    ("IN", flag [0x1F1EE; 0x1F1F3]); ("IT", flag [0x1F1EE; 0x1F1F9]);
    ("JP", flag [0x1F1EF; 0x1F1F5]); ("KR", flag [0x1F1F0; 0x1F1F7]);
    ("NG", flag [0x1F1F3; 0x1F1EC]); ("NL", flag [0x1F1F3; 0x1F1F1]);
    ("NZ", flag [0x1F1F3; 0x1F1FF]); ("QA", flag [0x1F1F6; 0x1F1E6]);
    ("RU", flag [0x1F1F7; 0x1F1FA]); ("SG", flag [0x1F1F8; 0x1F1EC]);
    ("TH", flag [0x1F1F9; 0x1F1ED]); ("TW", flag [0x1F1F9; 0x1F1FC]);
    ("UN", flag [0x1F1FA; 0x1F1F3]); ("US", flag [0x1F1FA; 0x1F1F8]);
    ("VN", flag [0x1F1FB; 0x1F1F3]); ("WHO", flag [0x1F3E5]);
    ("ZA", flag [0x1F1FF; 0x1F1E6]) ]%N%string.

(** The two tables as maps from country code to text: the own properties
    of the two objects. *)
Definition COUNTRY_NAMES : gmap string jsstring :=
  list_to_map COUNTRY_NAMES_entries.

Definition COUNTRY_FLAGS : gmap string jsstring :=
  list_to_map COUNTRY_FLAGS_entries.

(** Get previous day as YYYY-MM-DD *)
Definition prevDate (dateStr : jsstring) : outcome jsstring :=
  let d := JsDate.new_Date (dateStr ++ js "T12:00:00Z") in
  let d := JsDate.setUTCDate d (JsDate.num_sub (JsDate.getUTCDate d) (Some 1)) in
  match JsDate.toISOString d with
  | Returned s => Returned (slice s 0 10)
  | Thrown e => Thrown e
  end.

(** Get next day as YYYY-MM-DD *)
Definition nextDate (dateStr : jsstring) : outcome jsstring :=
  let d := JsDate.new_Date (dateStr ++ js "T12:00:00Z") in
  let d := JsDate.setUTCDate d (JsDate.num_add (JsDate.getUTCDate d) (Some 1)) in
  match JsDate.toISOString d with
  | Returned s => Returned (slice s 0 10)
  | Thrown e => Thrown e
  end.

End Constants.

(** ** The element tree handed to satori (lib/og.ts) *)

Module Satori.
Import Js.

Inductive StyleValue :=
| Str (s : string)
| Num (q : Q).

Inductive Children (E : Type) :=
| NoChildren
| Text (s : jsstring)
| Nodes (l : list E).
Arguments NoChildren {E}.
Arguments Text {E} s.
Arguments Nodes {E} l.

(** [{ type, props: { style, children } }] *)
#[warnings="-register-all"] Inductive Element :=
| El (type : string) (style : list (string * StyleValue))
     (children : Children Element).

Definition ArrayBuffer : Type := list N.
Definition Buffer : Type := list N.

Record Font := {
  name : string;
  data : option ArrayBuffer;
  weight : Z;
  style : string;
}.

Record Options := {
  width : Z;
  height : Z;
  fonts : list Font;
}.

End Satori.

(** ** lib/digest.ts: the interfaces *)

Module ReleaseSummary.
(** A row of [release_summary], as [SELECT *] returns it. *)
Record t := {
  id : Z;
  country_digest_id : Z;
  release_id : Z;
  title : string;
  summary : string;
  original_url : string;
  ministry : option string;
}.
End ReleaseSummary.

Module CountryDigestRow.
(** A row of [country_digest]: [CountryDigest & { daily_digest_id }]
    before the releases are attached. The code guards [title] with
    [|| ""], so the column may hold NULL. *)
Record t := {
  id : Z;
  daily_digest_id : Z;
  country_code : string;
  country_name : string;
  title : option string;
  summary : string;
}.
End CountryDigestRow.

Module CountryDigest.
Record t := {
  id : Z;
  country_code : string;
  country_name : string;
  title : string;
  summary : string;
  releases : list ReleaseSummary.t;
}.
End CountryDigest.

Module DailyDigest.
(** A row of [daily_digest]. The routes guard [global_title] with [||],
    so the column may hold NULL. *)
Record t := {
  id : Z;
  date : string;
  global_title : option string;
  global_summary : string;
  created_at : string;
}.
End DailyDigest.

Module DigestPage.
Record t := {
  digest : DailyDigest.t;
  countries : list CountryDigest.t;
}.
End DigestPage.

Module WeeklyCountryDigestRow.
(** A row of [weekly_country_digest]. *)
Record t := {
  id : Z;
  weekly_digest_id : Z;
  country_code : string;
  country_name : string;
  title : option string;
  summary : string;
}.
End WeeklyCountryDigestRow.

Module WeeklyCountryDigest.
Record t := {
  id : Z;
  country_code : string;
  country_name : string;
  title : string;
  summary : string;
}.
End WeeklyCountryDigest.

Module WeeklyDigest.
(** A row of [weekly_digest]. *)
Record t := {
  id : Z;
  week_start : string;
  week_end : string;
  global_title : option string;
  global_summary : string;
  created_at : string;
}.
End WeeklyDigest.

Module WeeklyPage.
Record t := {
  digest : WeeklyDigest.t;
  countries : list WeeklyCountryDigest.t;
}.
End WeeklyPage.

(** ** The world the code runs in *)

Module Runtime.
Import Js.

(** The persisted digest state: the five tables of the file at [DB_PATH],
    each in scan order. *)
Record Database := {
  daily_digest : list DailyDigest.t;
  country_digest : list CountryDigestRow.t;
  release_summary : list ReleaseSummary.t;
  weekly_digest : list WeeklyDigest.t;
  weekly_country_digest : list WeeklyCountryDigestRow.t;
}.

(** [FONT_CACHE] of lib/og.ts. *)
Record FontCache := {
  regular : option Satori.ArrayBuffer;
  bold : option Satori.ArrayBuffer;
}.

(** What the process does to the outside, in order. *)
Inductive Event :=
| Fetch (url : string)
| SatoriCall (tree : Satori.Element) (options : Satori.Options)
| SharpCall (svg : jsstring).

Record World := {
  disk : Database;
  open_connections : nat;
  FONT_CACHE : FontCache;
  trace : list Event;
}.

Definition M (A : Type) : Type := World -> outcome A * World.

Definition ret {A} (a : A) : M A := fun w => (Returned a, w).

Definition bind {A B} (m : M A) (k : A -> M B) : M B := fun w =>
  match m w with
  | (Returned a, w1) => k a w1
  | (Thrown e, w1) => (Thrown e, w1)
  end.

Definition throw {A} (e : Error) : M A := fun w => (Thrown e, w).

(** [try { body } finally { fin }] *)
Definition try_finally {A} (body : M A) (fin : M unit) : M A := fun w =>
  match body w with
  | (r, w1) =>
      match fin w1 with
      | (Returned _, w2) => (r, w2)
      | (Thrown e, w2) => (Thrown e, w2)
      end
  end.

#[global] Instance M_ret : MRet M := @ret.
#[global] Instance M_bind : MBind M := fun A B k m => bind m k.

(** [xs.map(f)] where [f] has effects: left to right. *)
Fixpoint map_M {A B} (f : A -> M B) (xs : list A) : M (list B) :=
  match xs with
  | [] => ret []
  | x :: rest =>
      y ← f x;
      ys ← map_M f rest;
      ret (y :: ys)
  end.

End Runtime.

(** ** better-sqlite3, as far as the readers use it *)

Module Sqlite.
Import Js Runtime.

(** A connection handle: [new Database(path, { readonly })]. *)
Record Connection := { readonly : bool }.

(** A prepared statement either reads rows of type [R] or changes the
    tables. *)
Inductive Statement (R : Type) :=
| Query (q : Database -> list R)
| Mutation (f : Database -> Database).
Arguments Query {R} q.
Arguments Mutation {R} f.

Definition new_Database (ro : bool) : M Connection := fun w =>
  (Returned {| readonly := ro |},
   {| disk := disk w; open_connections := S (open_connections w);
      FONT_CACHE := FONT_CACHE w; trace := trace w |}).

Definition close (c : Connection) : M unit := fun w =>
  (Returned tt,
   {| disk := disk w; open_connections := Nat.pred (open_connections w);
      FONT_CACHE := FONT_CACHE w; trace := trace w |}).

(** [stmt.all(...)] *)
Definition all {R} (c : Connection) (s : Statement R) : M (list R) :=
  match s with
  | Query q => fun w => (Returned (q (disk w)), w)
  | Mutation _ =>
      throw (TypeError "This statement does not return data. Use run() instead")
  end.

(** [stmt.get(...)]: the first row, or undefined. *)
Definition get {R} (c : Connection) (s : Statement R) : M (option R) :=
  match s with
  | Query q => fun w => (Returned (head (q (disk w))), w)
  | Mutation _ =>
      throw (TypeError "This statement does not return data. Use run() instead")
  end.

(** [stmt.run(...)]: a read-only connection refuses to write. *)
Definition run {R} (c : Connection) (s : Statement R) : M unit :=
  match s with
  | Query _ => ret tt
  | Mutation f =>
      if readonly c
      then throw (SqliteError "attempt to write a readonly database")
      else fun w =>
        (Returned tt,
         {| disk := f (disk w); open_connections := open_connections w;
            FONT_CACHE := FONT_CACHE w; trace := trace w |})
  end.

(** The BINARY collation on TEXT: byte-wise, shorter prefix first. *)
Definition text_le (a b : string) : Prop := String.leb a b = true.

#[global] Instance text_le_dec : RelDecision text_le.
Proof. intros a b. unfold text_le. apply bool_eq_dec. Defined.

(** [ORDER BY key] on a TEXT column, ascending and descending, and on an
    INTEGER column. Which of two rows with equal keys comes first is left
    open by SQLite; nothing below depends on it. *)
Definition order_by_text {A} (key : A -> string) (rows : list A) : list A :=
  @merge_sort A (fun x y => text_le (key x) (key y))
    (fun x y => text_le_dec (key x) (key y)) rows.

Definition order_by_text_desc {A} (key : A -> string) (rows : list A) : list A :=
  @merge_sort A (fun x y => text_le (key y) (key x))
    (fun x y => text_le_dec (key y) (key x)) rows.

Definition order_by_int {A} (key : A -> Z) (rows : list A) : list A :=
  @merge_sort A (fun x y => key x <= key y)
    (fun x y => Z.le_dec (key x) (key y)) rows.

(** [WHERE column = ?] *)
Definition where_text {A} (key : A -> string) (v : string) (rows : list A) : list A :=
  filter (fun r => key r = v) rows.

Definition where_int {A} (key : A -> Z) (v : Z) (rows : list A) : list A :=
  filter (fun r => key r = v) rows.

End Sqlite.

(** ** lib/digest.ts: the readers *)

Module Digest.
Import Js Runtime Sqlite.

(** [a || b] on a TEXT value handed to JavaScript: NULL and the empty
    string are falsy. *)
Definition text_or (a : option string) (b : string) : string :=
  match a with
  | Some (String _ _ as s) => s
  | _ => b
  end.

Definition getDb : M Connection := new_Database true.

(** [SELECT * FROM release_summary WHERE country_digest_id = ? ORDER BY id] *)
Definition select_releases (country_digest_id : Z) : Statement ReleaseSummary.t :=
  Query (fun db =>
    order_by_int ReleaseSummary.id
      (where_int ReleaseSummary.country_digest_id country_digest_id
         (release_summary db))).

(** [SELECT * FROM country_digest WHERE daily_digest_id = ? ORDER BY country_name] *)
Definition select_countries (daily_digest_id : Z) : Statement CountryDigestRow.t :=
  Query (fun db =>
    order_by_text CountryDigestRow.country_name
      (where_int CountryDigestRow.daily_digest_id daily_digest_id
         (country_digest db))).

(** [SELECT * FROM weekly_country_digest WHERE weekly_digest_id = ? ORDER BY country_name] *)
Definition select_weekly_countries (weekly_digest_id : Z)
  : Statement WeeklyCountryDigestRow.t :=
  Query (fun db =>
    order_by_text WeeklyCountryDigestRow.country_name
      (where_int WeeklyCountryDigestRow.weekly_digest_id weekly_digest_id
         (weekly_country_digest db))).

(** [SELECT * FROM daily_digest ORDER BY date DESC LIMIT 1] *)
Definition select_latest_daily : Statement DailyDigest.t :=
  Query (fun db => take 1 (order_by_text_desc DailyDigest.date (daily_digest db))).

(** [SELECT * FROM daily_digest WHERE date = ?] *)
Definition select_daily_by_date (date : string) : Statement DailyDigest.t :=
  Query (fun db => where_text DailyDigest.date date (daily_digest db)).

(** [SELECT date FROM daily_digest ORDER BY date DESC] *)
Definition select_daily_dates : Statement DailyDigest.t :=
  Query (fun db => order_by_text_desc DailyDigest.date (daily_digest db)).

(** [SELECT * FROM weekly_digest WHERE week_end = ?] *)
Definition select_weekly_by_end (weekEnd : string) : Statement WeeklyDigest.t :=
  Query (fun db => where_text WeeklyDigest.week_end weekEnd (weekly_digest db)).

(** [SELECT week_end FROM weekly_digest ORDER BY week_end DESC] *)
Definition select_weekly_dates : Statement WeeklyDigest.t :=
  Query (fun db => order_by_text_desc WeeklyDigest.week_end (weekly_digest db)).

Definition buildDigestPage (db : Connection) (digest : DailyDigest.t)
  : M DigestPage.t :=
  countryRows ← all db (select_countries (DailyDigest.id digest));
  countries ← map_M (fun c =>
      releases ← all db (select_releases (CountryDigestRow.id c));
      mret {| CountryDigest.id := CountryDigestRow.id c;
              CountryDigest.country_code := CountryDigestRow.country_code c;
              CountryDigest.country_name := CountryDigestRow.country_name c;
              CountryDigest.title := text_or (CountryDigestRow.title c) "";
              CountryDigest.summary := CountryDigestRow.summary c;
              CountryDigest.releases := releases |})
    countryRows;
  mret {| DigestPage.digest := digest; DigestPage.countries := countries |}.

Definition buildWeeklyPage (db : Connection) (digest : WeeklyDigest.t)
  : M WeeklyPage.t :=
  countryRows ← all db (select_weekly_countries (WeeklyDigest.id digest));
  let countries := map (fun c =>
      {| WeeklyCountryDigest.id := WeeklyCountryDigestRow.id c;
         WeeklyCountryDigest.country_code := WeeklyCountryDigestRow.country_code c;
         WeeklyCountryDigest.country_name := WeeklyCountryDigestRow.country_name c;
         WeeklyCountryDigest.title := text_or (WeeklyCountryDigestRow.title c) "";
         WeeklyCountryDigest.summary := WeeklyCountryDigestRow.summary c |})
    countryRows in
  mret {| WeeklyPage.digest := digest; WeeklyPage.countries := countries |}.

Definition getLatestDigest : M (option DigestPage.t) :=
  db ← getDb;
  try_finally
    (row ← get db select_latest_daily;
     match row with
     | None => mret None
     | Some row => page ← buildDigestPage db row; mret (Some page)
     end)
    (close db).

Definition getDigestByDate (date : string) : M (option DigestPage.t) :=
  db ← getDb;
  try_finally
    (row ← get db (select_daily_by_date date);
     match row with
     | None => mret None
     | Some row => page ← buildDigestPage db row; mret (Some page)
     end)
    (close db).

Definition getAllDigestDates : M (list string) :=
  db ← getDb;
  try_finally
    (rows ← all db select_daily_dates;
     mret (map DailyDigest.date rows))
    (close db).

Definition getWeeklyDigest (weekEnd : string) : M (option WeeklyPage.t) :=
  db ← getDb;
  try_finally
    (row ← get db (select_weekly_by_end weekEnd);
     match row with
     | None => mret None
     | Some row => page ← buildWeeklyPage db row; mret (Some page)
     end)
    (close db).

Definition getAllWeeklyDates : M (list string) :=
  db ← getDb;
  try_finally
    (rows ← all db select_weekly_dates;
     mret (map WeeklyDigest.week_end rows))
    (close db).

End Digest.

(** ** lib/og.ts *)

Module Og.
Import Js Runtime Satori.

(** What the platform and the libraries outside the repository's
    TypeScript supply: the transcoding of better-sqlite3 between TEXT and
    JavaScript strings, [stripMd] of lib/md.ts (the routes take it as
    given; its own model is [Md.stripMd]),
    the locale formatting behind [formatDate] and [formatDateShort]
    (lib/constants.ts), the CDN that serves the fonts ([None]: the request
    fails), satori and sharp. *)
Record Platform := {
  decode_text : string -> jsstring;
  encode_text : jsstring -> string;
  stripMd : jsstring -> jsstring;
  formatDate : jsstring -> jsstring;
  formatDateShort : jsstring -> jsstring;
  cdn : string -> option ArrayBuffer;
  satori : Element -> Options -> jsstring;
  sharp_png : jsstring -> Buffer;
}.

Definition emit (e : Event) : M unit := fun w =>
  (Returned tt,
   {| disk := disk w; open_connections := open_connections w;
      FONT_CACHE := FONT_CACHE w; trace := trace w ++ [e] |}).

Definition read_FONT_CACHE : M FontCache := fun w => (Returned (FONT_CACHE w), w).

Definition write_FONT_CACHE (c : FontCache) : M unit := fun w =>
  (Returned tt,
   {| disk := disk w; open_connections := open_connections w;
      FONT_CACHE := c; trace := trace w |}).

Definition regular_url : string :=
  "https://cdn.jsdelivr.net/fontsource/fonts/inter@latest/latin-400-normal.woff".

Definition bold_url : string :=
  "https://cdn.jsdelivr.net/fontsource/fonts/inter@latest/latin-700-normal.woff".

Section with_platform.
Variable P : Platform.

(** Both requests of the [Promise.all] are sent before either answer is
    looked at. *)
Definition loadFonts : M FontCache :=
  cache ← read_FONT_CACHE;
  match regular cache with
  | None =>
      _ ← emit (Fetch regular_url);
      _ ← emit (Fetch bold_url);
      match cdn P regular_url, cdn P bold_url with
      | Some r, Some b =>
          _ ← write_FONT_CACHE {| regular := Some r; bold := bold cache |};
          cache' ← read_FONT_CACHE;
          _ ← write_FONT_CACHE {| regular := regular cache'; bold := Some b |};
          read_FONT_CACHE
      | _, _ => throw (TypeError "fetch failed")
      end
  | Some _ => mret cache
  end.

Definition og_tree (headline truncatedDesc dateLabel : jsstring) : Element :=
  El "div"
    [ ("width", Str "100%"); ("height", Str "100%"); ("display", Str "flex");
      ("flexDirection", Str "column");
      ("justifyContent", Str "space-between");
      ("backgroundColor", Str "#1a1a1a"); ("padding", Str "60px 64px");
      ("fontFamily", Str "Inter") ]
    (Nodes
      [ El "div"
          [ ("display", Str "flex"); ("flexDirection", Str "column") ]
          (Nodes
            [ El "div"
                [ ("fontSize", Num 22); ("fontWeight", Num 400);
                  ("color", Str "#888888"); ("letterSpacing", Str "0.15em");
                  ("textTransform", Str "uppercase");
                  ("marginBottom", Num 16) ]
                (Text (js "What Is The Govt Saying"));
              El "div"
                [ ("display", Str "flex"); ("width", Str "100%");
                  ("height", Num 3); ("backgroundColor", Str "#e2e0dc");
                  ("marginBottom", Num 32) ]
                NoChildren;
              El "div"
                [ ("fontSize", Num 48); ("fontWeight", Num 700);
                  ("color", Str "#ffffff"); ("lineHeight", Num 1.2);
                  ("marginBottom", Num 24) ]
                (Text (if jslength headline >? 90
                       then slice headline 0 87 ++ js "..."
                       else headline));
              El "div"
                [ ("fontSize", Num 22); ("fontWeight", Num 400);
                  ("color", Str "#aaaaaa"); ("lineHeight", Num 1.5) ]
                (Text truncatedDesc) ]);
        El "div"
          [ ("display", Str "flex");
            ("justifyContent", Str "space-between");
            ("alignItems", Str "center");
            ("borderTop", Str "1px solid #333333");
            ("paddingTop", Num 20) ]
          (Nodes
            [ El "div"
                [ ("fontSize", Num 20); ("color", Str "#888888") ]
                (Text dateLabel);
              El "div"
                [ ("fontSize", Num 16); ("color", Str "#555555") ]
                (Text (js "whatisthegovtsaying.com")) ]) ]).

Definition og_options (fonts : FontCache) : Options :=
  {| width := 1200;
     height := 630;
     fonts :=
       [ {| name := "Inter"; data := regular fonts; weight := 400;
            style := "normal" |};
         {| name := "Inter"; data := bold fonts; weight := 700;
            style := "normal" |} ] |}.

Definition generateOgImage (headline description dateLabel : jsstring)
  : M Buffer :=
  fonts ← loadFonts;
  let truncatedDesc :=
    if jslength description >? 140
    then slice description 0 137 ++ js "..."
    else description in
  let tree := og_tree headline truncatedDesc dateLabel in
  let options := og_options fonts in
  _ ← emit (SatoriCall tree options);
  let svg := satori P tree options in
  _ ← emit (SharpCall svg);
  mret (sharp_png P svg).

End with_platform.

End Og.

(** ** The OG image routes *)

Module Http.
Import Js Satori.

Inductive Body :=
| TextBody (s : jsstring)
| BufferBody (b : Buffer).

(** [new Response(body, { status, headers })]; the status is 200 when
    none is given. *)
Record Response := {
  body : Body;
  status : Z;
  headers : list (string * string);
}.

End Http.

(** pages/og/daily/[date].png.ts *)
Module OgDaily.
Import Js Runtime Satori Http Og.

Section with_platform.
Variable P : Platform.

(** [s.replace(/[*_#>\[\]]/g, "")] *)
Definition strip_marks (s : jsstring) : jsstring :=
  filter (fun c => c ∉ [42; 95; 35; 62; 91; 93]%N) s.

Definition getStaticPaths : M (list jsstring) :=
  dates ← Digest.getAllDigestDates;
  mret (map (decode_text P) dates).

Definition GET (date : jsstring) : M Response :=
  page ← Digest.getDigestByDate (encode_text P date);
  match page with
  | None =>
      mret {| body := TextBody (js "Not found"); status := 404; headers := [] |}
  | Some page =>
      let digest := DigestPage.digest page in
      let headline :=
        stripMd P
          (or_else_null (decode_text P <$> DailyDigest.global_title digest)
             (js "Government Press Digest")) in
      let description :=
        slice (strip_marks (decode_text P (DailyDigest.global_summary digest)))
          0 160 in
      let dateLabel := formatDate P (decode_text P (DailyDigest.date digest)) in
      png ← generateOgImage P headline description dateLabel;
      mret {| body := BufferBody png; status := 200;
              headers := [("Content-Type", "image/png")] |}
  end.

End with_platform.

End OgDaily.

(** pages/og/weekly/[date].png.ts *)
Module OgWeekly.
Import Js Runtime Satori Http Og.

Section with_platform.
Variable P : Platform.

(** [s.replace(/[*_#>\[\]|]/g, "")] *)
Definition strip_marks (s : jsstring) : jsstring :=
  filter (fun c => c ∉ [42; 95; 35; 62; 91; 93; 124]%N) s.

Definition getStaticPaths : M (list jsstring) :=
  dates ← Digest.getAllWeeklyDates;
  mret (map (decode_text P) dates).

(** The separator of the date label, as the source file has it: the
    code points U+00E2, U+20AC, U+201D between two spaces. *)
Definition label_separator : jsstring :=
  js " " ++ from_code_points [0xE2; 0x20AC; 0x201D]%N ++ js " ".

Definition GET (date : jsstring) : M Response :=
  page ← Digest.getWeeklyDigest (encode_text P date);
  match page with
  | None =>
      mret {| body := TextBody (js "Not found"); status := 404; headers := [] |}
  | Some page =>
      let digest := WeeklyPage.digest page in
      let headline :=
        stripMd P
          (or_else_null (decode_text P <$> WeeklyDigest.global_title digest)
             (js "Weekly Government Digest")) in
      let description :=
        slice (strip_marks (decode_text P (WeeklyDigest.global_summary digest)))
          0 160 in
      let dateLabel :=
        js "Week of "
          ++ formatDateShort P (decode_text P (WeeklyDigest.week_start digest))
          ++ label_separator
          ++ formatDate P (decode_text P (WeeklyDigest.week_end digest)) in
      png ← generateOgImage P headline description dateLabel;
      mret {| body := BufferBody png; status := 200;
              headers := [("Content-Type", "image/png")] |}
  end.

End with_platform.

End OgWeekly.

(** ** lib/md.ts: stripMd *)

Module Md.
Import Js.

(** What [\s] matches and [trim] removes: white space and line
    terminators. *)
Definition is_space (c : N) : bool :=
  bool_decide (c ∈ [9; 10; 11; 12; 13; 32; 160; 5760; 8232; 8233; 8239; 8287;
                    12288; 65279]%N)
  || ((8192 <=? c) && (c <=? 8202))%N.

(** After which [^] matches under the [m] flag. *)
Definition is_line_terminator (c : N) : bool :=
  bool_decide (c ∈ [10; 13; 8232; 8233]%N).

(** The longest prefix free of [c], and the rest: what [[^c]*] takes. *)
Fixpoint span_not (c : N) (s : jsstring) : jsstring * jsstring :=
  match s with
  | [] => ([], [])
  | x :: rest =>
      if (x =? c)%N then ([], s)
      else let (run, tail) := span_not c rest in (x :: run, tail)
  end.

(** [s] without the prefix [p], when it starts with [p]. *)
Fixpoint strip_prefix (p s : jsstring) : option jsstring :=
  match p, s with
  | [], _ => Some s
  | a :: p', b :: s' => if (a =? b)%N then strip_prefix p' s' else None
  | _ :: _, [] => None
  end.

(** A match of [/D([^c]+)D/] at the start of [s], where the delimiter [D]
    is made of [c]s: the group and the length of the match. The group is
    the whole run free of [c]: a shorter one would not be followed by
    [c]. *)
Definition match_delimited (delim : jsstring) (c : N) (s : jsstring)
  : option (jsstring * nat) :=
  match strip_prefix delim s with
  | None => None
  | Some s1 =>
      let (group, s2) := span_not c s1 in
      match group, strip_prefix delim s2 with
      | _ :: _, Some _ =>
          Some (group, (length delim + length group + length delim)%nat)
      | _, _ => None
      end
  end.

(** A match of [/\[([^\]]+)\]\([^)]+\)/] at the start of [s]: the link
    text and the length of the match. *)
Definition match_link (s : jsstring) : option (jsstring * nat) :=
  match strip_prefix [91%N] s with
  | None => None
  | Some s1 =>
      let (text, s2) := span_not 93 s1 in
      match text, strip_prefix [93; 40]%N s2 with
      | _ :: _, Some s3 =>
          let (url, s4) := span_not 41 s3 in
          match url, strip_prefix [41%N] s4 with
          | _ :: _, Some _ =>
              Some (text, (1 + length text + 2 + length url + 1)%nat)
          | _, _ => None
          end
      | _, _ => None
      end
  end.

(** [s.replace(/.../g, "$1")]: from left to right, a match found at a
    position is replaced by its group and the search goes on behind it;
    [skip] counts the code units of the last match still to pass. *)
Fixpoint replace_all (matcher : jsstring -> option (jsstring * nat))
    (skip : nat) (s : jsstring) : jsstring :=
  match s with
  | [] => []
  | c :: rest =>
      match skip with
      | S k => replace_all matcher k rest
      | O =>
          match matcher s with
          | Some (group, len) => group ++ replace_all matcher (len - 1) rest
          | None => c :: replace_all matcher 0 rest
          end
      end
  end.

(** [s.replace(/^#+\s*/gm, "")] as a scan: copying (at the start of a line
    or not), inside the hashes of a match, or inside the white space behind
    them (which may end in a line terminator, so that a new match can
    start right there). *)
Inductive heading_state :=
| Copying (line_start : bool)
| InHashes
| InSpaces (after_terminator : bool).

Fixpoint strip_headings (st : heading_state) (s : jsstring) : jsstring :=
  match s with
  | [] => []
  | c :: rest =>
      let copy := c :: strip_headings (Copying (is_line_terminator c)) rest in
      match st with
      | Copying line_start =>
          if line_start && (c =? 35)%N then strip_headings InHashes rest
          else copy
      | InHashes =>
          if (c =? 35)%N then strip_headings InHashes rest
          else if is_space c
               then strip_headings (InSpaces (is_line_terminator c)) rest
               else copy
      | InSpaces after_terminator =>
          if is_space c
          then strip_headings (InSpaces (is_line_terminator c)) rest
          else if after_terminator && (c =? 35)%N
               then strip_headings InHashes rest
               else copy
      end
  end.

Fixpoint drop_spaces (s : jsstring) : jsstring :=
  match s with
  | c :: rest => if is_space c then drop_spaces rest else s
  | [] => []
  end.

(** [s.trim()] *)
Definition trim (s : jsstring) : jsstring :=
  reverse (drop_spaces (reverse (drop_spaces s))).

(** Strip markdown syntax for use in plain text contexts (titles, meta
    tags). *)
Definition stripMd (text : jsstring) : jsstring :=
  let text := replace_all (match_delimited (js "**") 42) 0 text in
  let text := replace_all (match_delimited (js "*") 42) 0 text in
  let text := replace_all (match_delimited (js "_") 95) 0 text in
  let text := replace_all (match_delimited (js "`") 96) 0 text in
  let text := strip_headings (Copying true) text in
  let text := replace_all match_link 0 text in
  trim text.

End Md.

(** ** Vocabulary of the statements *)

Module Spec.
Import Js Runtime Sqlite.

(** A country of a page and the row of [country_digest] it shows. *)
Definition shows_row (c : CountryDigest.t) (r : CountryDigestRow.t) : Prop :=
  CountryDigest.id c = CountryDigestRow.id r
  /\ CountryDigest.country_code c = CountryDigestRow.country_code r
  /\ CountryDigest.country_name c = CountryDigestRow.country_name r
  /\ CountryDigest.title c = Digest.text_or (CountryDigestRow.title r) ""
  /\ CountryDigest.summary c = CountryDigestRow.summary r.

Definition shows_weekly_row
  (c : WeeklyCountryDigest.t) (r : WeeklyCountryDigestRow.t) : Prop :=
  WeeklyCountryDigest.id c = WeeklyCountryDigestRow.id r
  /\ WeeklyCountryDigest.country_code c = WeeklyCountryDigestRow.country_code r
  /\ WeeklyCountryDigest.country_name c = WeeklyCountryDigestRow.country_name r
  /\ WeeklyCountryDigest.title c = Digest.text_or (WeeklyCountryDigestRow.title r) ""
  /\ WeeklyCountryDigest.summary c = WeeklyCountryDigestRow.summary r.

(** [page] is what one of the two daily readers returns in world [w]. *)
Definition daily_page_of (w : World) (page : DigestPage.t) : Prop :=
  (Digest.getLatestDigest w).1 = Returned (Some page)
  \/ exists date, (Digest.getDigestByDate date w).1 = Returned (Some page).

Definition weekly_page_of (w : World) (page : WeeklyPage.t) : Prop :=
  exists weekEnd, (Digest.getWeeklyDigest weekEnd w).1 = Returned (Some page).

(** The connection every reader works on. *)
Definition reader_connection : Connection := {| readonly := true |}.

(** What the queries of [buildDigestPage] and [buildWeeklyPage] read from
    given tables. *)
Definition releases_in (db : Database) (country_digest_id : Z)
  : list ReleaseSummary.t :=
  order_by_int ReleaseSummary.id
    (where_int ReleaseSummary.country_digest_id country_digest_id
       (release_summary db)).

Definition country_rows_in (db : Database) (daily_digest_id : Z)
  : list CountryDigestRow.t :=
  order_by_text CountryDigestRow.country_name
    (where_int CountryDigestRow.daily_digest_id daily_digest_id
       (country_digest db)).

Definition weekly_country_rows_in (db : Database) (weekly_digest_id : Z)
  : list WeeklyCountryDigestRow.t :=
  order_by_text WeeklyCountryDigestRow.country_name
    (where_int WeeklyCountryDigestRow.weekly_digest_id weekly_digest_id
       (weekly_country_digest db)).

Definition country_in (db : Database) (c : CountryDigestRow.t)
  : CountryDigest.t :=
  {| CountryDigest.id := CountryDigestRow.id c;
     CountryDigest.country_code := CountryDigestRow.country_code c;
     CountryDigest.country_name := CountryDigestRow.country_name c;
     CountryDigest.title := Digest.text_or (CountryDigestRow.title c) "";
     CountryDigest.summary := CountryDigestRow.summary c;
     CountryDigest.releases := releases_in db (CountryDigestRow.id c) |}.

Definition weekly_country (c : WeeklyCountryDigestRow.t)
  : WeeklyCountryDigest.t :=
  {| WeeklyCountryDigest.id := WeeklyCountryDigestRow.id c;
     WeeklyCountryDigest.country_code := WeeklyCountryDigestRow.country_code c;
     WeeklyCountryDigest.country_name := WeeklyCountryDigestRow.country_name c;
     WeeklyCountryDigest.title := Digest.text_or (WeeklyCountryDigestRow.title c) "";
     WeeklyCountryDigest.summary := WeeklyCountryDigestRow.summary c |}.

Definition page_in (db : Database) (digest : DailyDigest.t) : DigestPage.t :=
  {| DigestPage.digest := digest;
     DigestPage.countries :=
       map (country_in db) (country_rows_in db (DailyDigest.id digest)) |}.

Definition weekly_page_in (db : Database) (digest : WeeklyDigest.t)
  : WeeklyPage.t :=
  {| WeeklyPage.digest := digest;
     WeeklyPage.countries :=
       map weekly_country (weekly_country_rows_in db (WeeklyDigest.id digest)) |}.

(** [page] is the page of the row [row] of [daily_digest] in the tables
    [db]: it carries the row, its countries show exactly the rows of
    [country_digest] that point to the row, in ascending order of
    [country_name], and each country carries exactly the rows of
    [release_summary] that point to it, in ascending order of [id]. *)
Definition is_page_of (db : Database) (row : DailyDigest.t)
    (page : DigestPage.t) : Prop :=
  DigestPage.digest page = row
  /\ StronglySorted text_le
       (map CountryDigest.country_name (DigestPage.countries page))
  /\ exists rows,
       rows ≡ₚ filter (fun r => CountryDigestRow.daily_digest_id r
                                = DailyDigest.id row)
                 (country_digest db)
       /\ Forall2
            (fun c r =>
               shows_row c r
               /\ CountryDigest.releases c
                  ≡ₚ filter (fun x => ReleaseSummary.country_digest_id x
                                      = CountryDigestRow.id r)
                       (release_summary db)
               /\ StronglySorted Z.le
                    (map ReleaseSummary.id (CountryDigest.releases c)))
            (DigestPage.countries page) rows.

(** [page] is the page of the row [row] of [weekly_digest] in the tables
    [db]. *)
Definition is_weekly_page_of (db : Database) (row : WeeklyDigest.t)
    (page : WeeklyPage.t) : Prop :=
  WeeklyPage.digest page = row
  /\ StronglySorted text_le
       (map WeeklyCountryDigest.country_name (WeeklyPage.countries page))
  /\ exists rows,
       rows ≡ₚ filter (fun r => WeeklyCountryDigestRow.weekly_digest_id r
                                = WeeklyDigest.id row)
                 (weekly_country_digest db)
       /\ Forall2 shows_weekly_row (WeeklyPage.countries page) rows.

(** The text nodes of the element tree that carry the headline and the
    description: the third and the fourth child of the first child of the
    root. *)
Definition child (e : Satori.Element) (i : nat) : option Satori.Element :=
  match e with
  | Satori.El _ _ (Satori.Nodes l) => l !! i
  | _ => None
  end.

Definition text_of (e : Satori.Element) : option jsstring :=
  match e with
  | Satori.El _ _ (Satori.Text s) => Some s
  | _ => None
  end.

Definition headline_text (tree : Satori.Element) : option jsstring :=
  child tree 0 ≫= fun column => child column 2 ≫= text_of.

Definition description_text (tree : Satori.Element) : option jsstring :=
  child tree 0 ≫= fun column => child column 3 ≫= text_of.

(** A text cut to at most [limit] code units: itself when it fits, else
    its first [limit - 3] code units and three dots. *)
Definition cut_to (limit : nat) (s : jsstring) : jsstring :=
  if decide (length s <= limit)%nat then s
  else take (limit - 3) s ++ js "...".

Definition not_found : Http.Response :=
  {| Http.body := Http.TextBody (js "Not found");
     Http.status := 404;
     Http.headers := [] |}.

(** The fonts can be had: they are cached, or the CDN serves both. *)
Definition fonts_available (P : Og.Platform) (w : World) : Prop :=
  is_Some (regular (FONT_CACHE w))
  \/ (is_Some (Og.cdn P Og.regular_url) /\ is_Some (Og.cdn P Og.bold_url)).

(** The font cache holds both fonts or none. *)
Definition cache_consistent (c : FontCache) : Prop :=
  (regular c = None /\ bold c = None)
  \/ (is_Some (regular c) /\ is_Some (bold c)).

(** The characters that the routes take out of a summary: [* _ # > [ ]],
    and [|] in the weekly route. *)
Definition daily_marks : list N := [42; 95; 35; 62; 91; 93]%N.
Definition weekly_marks : list N := [42; 95; 35; 62; 91; 93; 124]%N.

(** [new Response(png, { headers: { "Content-Type": "image/png" } })] *)
Definition png_response (png : Satori.Buffer) : Http.Response :=
  {| Http.body := Http.BufferBody png; Http.status := 200;
     Http.headers := [("Content-Type", "image/png")] |}.

(** The regional indicator symbol of a capital letter, and the flag that a
    code spells with them. *)
Definition regional_indicator (letter : ascii) : N :=
  (127462 + (N_of_ascii letter - 65))%N.

Definition flag_of_code (code : string) : jsstring :=
  from_code_points (map regional_indicator (list_ascii_of_string code)).

(** A match found by [matcher] lies inside the text and is at least as long
    as its group. *)
Definition fits (matcher : jsstring -> option (jsstring * nat)) : Prop :=
  forall s group len,
    matcher s = Some (group, len) ->
    (length group <= len <= length s)%nat.

(** A match found by [matcher] starts with the code unit [c]. *)
Definition starts_with (c : N) (matcher : jsstring -> option (jsstring * nat))
  : Prop :=
  forall s group len, matcher s = Some (group, len) -> head s = Some c.

End Spec.

(** ** The calendar, for the statements about [prevDate] and [nextDate] *)

Module Calendar.
Import Js.

Definition is_leap (y : Z) : bool :=
  (y mod 4 =? 0) && (negb (y mod 100 =? 0) || (y mod 400 =? 0)).

Definition days_in_month (y m : Z) : Z :=
  match m with
  | 2 => if is_leap y then 29 else 28
  | 4 | 6 | 9 | 11 => 30
  | _ => 31
  end.

(** A day of the calendar: month 1..12, day 1..length of the month. *)
Definition calendar_day (y m d : Z) : Prop :=
  1 <= m <= 12 /\ 1 <= d <= days_in_month y m.

(** A date that has a [YYYY-MM-DD] form: a calendar day of a year from
    0000 to 9999. *)
Definition valid_date (y m d : Z) : Prop :=
  0 <= y <= 9999 /\ calendar_day y m d.

(** The decimal digit of [v] at position [k] (0 is the last), as a code
    unit. *)
Definition digit_at (v : Z) (k : Z) : N := Z.to_N (48 + (v / 10 ^ k) mod 10).

(** The [YYYY-MM-DD] form. *)
Definition iso_date (y m d : Z) : jsstring :=
  [ digit_at y 3; digit_at y 2; digit_at y 1; digit_at y 0; 45%N;
    digit_at m 1; digit_at m 0; 45%N;
    digit_at d 1; digit_at d 0 ].

(** The day after and the day before, by the rules of the calendar. *)
Definition next_day (y m d : Z) : Z * Z * Z :=
  if d <? days_in_month y m then (y, m, d + 1)
  else if m <? 12 then (y, m + 1, 1)
  else (y + 1, 1, 1).

Definition prev_day (y m d : Z) : Z * Z * Z :=
  if 1 <? d then (y, m, d - 1)
  else if 1 <? m then (y, m - 1, days_in_month y (m - 1))
  else (y - 1, 12, 31).

(** 1 for a leap year, 0 otherwise, as MakeDay and InLeapYear compute
    it. *)
Definition leap_flag (y : Z) : Z := if JsDate.DaysInYear y =? 366 then 1 else 0.

(** The day number (days since the epoch) of a calendar day. *)
Definition day_number (y m d : Z) : Z :=
  JsDate.DayFromYear y + JsDate.month_start (m - 1) (leap_flag y) + d - 1.

(** 12:00:00 in milliseconds. *)
Definition noon : Z := 43200000.

Definition iso_of (c : Z * Z * Z) : jsstring :=
  let '(y, m, d) := c in iso_date y m d.

(** One call after the other; an exception ends both. *)
Definition and_then {A B} (o : outcome A) (f : A -> outcome B) : outcome B :=
  match o with
  | Returned a => f a
  | Thrown e => Thrown e
  end.

(** The [YYYY-MM-DD] form as the store keeps it, and the order of the
    calendar. *)
Definition iso_text (y m d : Z) : string :=
  string_of_list_ascii (map ascii_of_N (iso_date y m d)).

Definition calendar_le (a b : Z * Z * Z) : Prop :=
  let '(y1, m1, d1) := a in
  let '(y2, m2, d2) := b in
  y1 < y2 \/ (y1 = y2 /\ (m1 < m2 \/ (m1 = m2 /\ d1 <= d2))).

End Calendar.

(** ** A small store to evaluate the readers on *)

Module Sample.
Import Js Runtime.

Definition day1 : DailyDigest.t :=
  {| DailyDigest.id := 1; DailyDigest.date := "2024-05-01";
     DailyDigest.global_title := Some "Trade and health";
     DailyDigest.global_summary := "Two governments spoke.";
     DailyDigest.created_at := "2024-05-02 07:00:00" |}.

Definition day2 : DailyDigest.t :=
  {| DailyDigest.id := 2; DailyDigest.date := "2024-05-02";
     DailyDigest.global_title := None;
     DailyDigest.global_summary := "One government spoke.";
     DailyDigest.created_at := "2024-05-03 07:00:00" |}.

Definition japan : CountryDigestRow.t :=
  {| CountryDigestRow.id := 10; CountryDigestRow.daily_digest_id := 1;
     CountryDigestRow.country_code := "JP";
     CountryDigestRow.country_name := "Japan";
     CountryDigestRow.title := Some "Japan on trade";
     CountryDigestRow.summary := "Tariffs and ports." |}.

Definition brazil : CountryDigestRow.t :=
  {| CountryDigestRow.id := 11; CountryDigestRow.daily_digest_id := 1;
     CountryDigestRow.country_code := "BR";
     CountryDigestRow.country_name := "Brazil";
     CountryDigestRow.title := None;
     CountryDigestRow.summary := "Vaccination campaign." |}.

Definition india : CountryDigestRow.t :=
  {| CountryDigestRow.id := 12; CountryDigestRow.daily_digest_id := 2;
     CountryDigestRow.country_code := "IN";
     CountryDigestRow.country_name := "India";
     CountryDigestRow.title := Some "India on rail";
     CountryDigestRow.summary := "New corridors." |}.

Definition tariffs : ReleaseSummary.t :=
  {| ReleaseSummary.id := 100; ReleaseSummary.country_digest_id := 10;
     ReleaseSummary.release_id := 9002;
     ReleaseSummary.title := "Tariff schedule revised";
     ReleaseSummary.summary := "The ministry revised the schedule.";
     ReleaseSummary.original_url := "https://example.jp/press/9002";
     ReleaseSummary.ministry := Some "Ministry of Trade" |}.

Definition ports : ReleaseSummary.t :=
  {| ReleaseSummary.id := 101; ReleaseSummary.country_digest_id := 10;
     ReleaseSummary.release_id := 9001;
     ReleaseSummary.title := "Harbour expansion approved";
     ReleaseSummary.summary := "A new terminal was approved.";
     ReleaseSummary.original_url := "https://example.jp/press/9001";
     ReleaseSummary.ministry := None |}.

Definition vaccines : ReleaseSummary.t :=
  {| ReleaseSummary.id := 102; ReleaseSummary.country_digest_id := 11;
     ReleaseSummary.release_id := 9003;
     ReleaseSummary.title := "Campaign starts";
     ReleaseSummary.summary := "Doses were shipped.";
     ReleaseSummary.original_url := "https://example.br/press/9003";
     ReleaseSummary.ministry := Some "Ministry of Health" |}.

Definition week1 : WeeklyDigest.t :=
  {| WeeklyDigest.id := 1; WeeklyDigest.week_start := "2024-04-29";
     WeeklyDigest.week_end := "2024-05-05";
     WeeklyDigest.global_title := Some "The week";
     WeeklyDigest.global_summary := "A week of statements.";
     WeeklyDigest.created_at := "2024-05-06 07:00:00" |}.

Definition week_japan : WeeklyCountryDigestRow.t :=
  {| WeeklyCountryDigestRow.id := 20;
     WeeklyCountryDigestRow.weekly_digest_id := 1;
     WeeklyCountryDigestRow.country_code := "JP";
     WeeklyCountryDigestRow.country_name := "Japan";
     WeeklyCountryDigestRow.title := Some "Japan this week";
     WeeklyCountryDigestRow.summary := "Trade all week." |}.

Definition week_brazil : WeeklyCountryDigestRow.t :=
  {| WeeklyCountryDigestRow.id := 21;
     WeeklyCountryDigestRow.weekly_digest_id := 1;
     WeeklyCountryDigestRow.country_code := "BR";
     WeeklyCountryDigestRow.country_name := "Brazil";
     WeeklyCountryDigestRow.title := None;
     WeeklyCountryDigestRow.summary := "Health all week." |}.

Definition db : Database :=
  {| daily_digest := [day1; day2];
     country_digest := [japan; brazil; india];
     release_summary := [tariffs; ports; vaccines];
     weekly_digest := [week1];
     weekly_country_digest := [week_japan; week_brazil] |}.

Definition no_fonts : FontCache := {| regular := None; bold := None |}.

Definition world : World :=
  {| disk := db; open_connections := 0; FONT_CACHE := no_fonts; trace := [] |}.

Definition empty_db : Database :=
  {| daily_digest := []; country_digest := []; release_summary := [];
     weekly_digest := []; weekly_country_digest := [] |}.

Definition empty_world : World :=
  {| disk := empty_db; open_connections := 0; FONT_CACHE := no_fonts;
     trace := [] |}.

(** A platform to evaluate the routes on: ASCII texts, a CDN that
    answers, and stand-ins for the markdown, locale and image code. *)
Definition platform : Og.Platform :=
  {| Og.decode_text := js;
     Og.encode_text := fun s => string_of_list_ascii (map ascii_of_N s);
     Og.stripMd := fun s => s;
     Og.formatDate := fun s => s;
     Og.formatDateShort := fun s => s;
     Og.cdn := fun url => Some (js url);
     Og.satori := fun _ _ => js "<svg/>";
     Og.sharp_png := fun svg => js "PNG" ++ svg |}.

Definition long_text : jsstring := repeat 120%N 150.

(** A platform whose CDN does not answer. *)
Definition offline_platform : Og.Platform :=
  {| Og.decode_text := js;
     Og.encode_text := fun s => string_of_list_ascii (map ascii_of_N s);
     Og.stripMd := Md.stripMd;
     Og.formatDate := fun s => s;
     Og.formatDateShort := fun s => s;
     Og.cdn := fun url => None;
     Og.satori := fun _ _ => js "<svg/>";
     Og.sharp_png := fun svg => js "PNG" ++ svg |}.

End Sample.

(** * Properties *)

(** ** The string helpers on examples *)

Section js_examples.
Import Js.

Example slice_inside : slice (js "abcdef") 1 3 = js "bc".
Proof. vm_compute. reflexivity. Qed.

Example slice_past_the_end : slice (js "abc") 0 160 = js "abc".
Proof. vm_compute. reflexivity. Qed.

Example slice_from_the_end : slice (js "abcdef") (-2) 6 = js "ef".
Proof. vm_compute. reflexivity. Qed.

Example slice_crossed : slice (js "abcdef") 4 2 = js "".
Proof. vm_compute. reflexivity. Qed.

Example or_else_null_title :
  or_else_null (Some (js "Title")) (js "Fallback") = js "Title"
  /\ or_else_null (Some (js "")) (js "Fallback") = js "Fallback"
  /\ or_else_null None (js "Fallback") = js "Fallback".
Proof. repeat split; vm_compute; reflexivity. Qed.

Example text_or_title :
  Digest.text_or (Some "Title") "" = "Title"%string
  /\ Digest.text_or (Some "") "" = ""%string
  /\ Digest.text_or None "" = ""%string.
Proof. repeat split; reflexivity. Qed.

Example astral_code_point :
  from_code_points [127471; 127477]%N = [55356; 56815; 55356; 56821]%N.
Proof. vm_compute. reflexivity. Qed.

End js_examples.

(** ** The BINARY collation is a total preorder *)

Section text_order.
Import Sqlite.

Lemma ascii_compare_refl a : Ascii.compare a a = Eq.
Proof. unfold Ascii.compare. apply N.compare_refl. Qed.

Lemma string_compare_refl s : String.compare s s = Eq.
Proof.
  induction s as [|a s IH]; [done|]. simpl. by rewrite ascii_compare_refl.
Qed.

Lemma ascii_compare_trans a b c o :
  Ascii.compare a b = o -> Ascii.compare b c = o -> Ascii.compare a c = o.
Proof.
  unfold Ascii.compare. destruct o; intros H1 H2.
  - apply N.compare_eq_iff in H1, H2. apply N.compare_eq_iff. congruence.
  - rewrite N.compare_lt_iff in *. lia.
  - rewrite N.compare_gt_iff in *. lia.
Qed.

Lemma string_compare_lt_trans s1 : forall s2 s3,
  String.compare s1 s2 = Lt -> String.compare s2 s3 = Lt ->
  String.compare s1 s3 = Lt.
Proof.
  induction s1 as [|a s1 IH]; intros [|b s2] [|c s3]; simpl; try done.
  destruct (Ascii.compare a b) eqn:Hab; try done;
    destruct (Ascii.compare b c) eqn:Hbc; try done; intros H1 H2.
  - rewrite (ascii_compare_trans _ _ _ _ Hab Hbc). eauto.
  - apply Ascii.compare_eq_iff in Hab. subst. by rewrite Hbc.
  - apply Ascii.compare_eq_iff in Hbc. subst. by rewrite Hab.
  - by rewrite (ascii_compare_trans _ _ _ _ Hab Hbc).
Qed.

Lemma text_le_alt a b :
  text_le a b <-> String.compare a b = Lt \/ a = b.
Proof.
  unfold text_le, String.leb. split.
  - destruct (String.compare a b) eqn:H; try done; [|by left].
    right. by apply String.compare_eq_iff.
  - intros [->| ->]; [done|]. by rewrite string_compare_refl.
Qed.

#[global] Instance text_le_refl : Reflexive text_le.
Proof. intros a. apply text_le_alt. by right. Qed.

#[global] Instance text_le_trans : Transitive text_le.
Proof.
  intros a b c. rewrite !text_le_alt. intros [H1| ->] [H2| ->]; auto.
  left. eauto using string_compare_lt_trans.
Qed.

#[global] Instance text_le_total : Total text_le.
Proof. intros a b. apply String.leb_total. Qed.

#[global] Instance text_le_antisym : AntiSymm (=) text_le.
Proof. intros a b H1 H2. by apply String.leb_antisym. Qed.

End text_order.

(** ** ORDER BY and WHERE *)

Section order_by.
Import Sqlite.
Context {A : Type}.

Lemma order_by_text_Permutation (key : A -> string) rows :
  order_by_text key rows ≡ₚ rows.
Proof. apply merge_sort_Permutation. Qed.

Lemma order_by_text_desc_Permutation (key : A -> string) rows :
  order_by_text_desc key rows ≡ₚ rows.
Proof. apply merge_sort_Permutation. Qed.

Lemma order_by_int_Permutation (key : A -> Z) rows :
  order_by_int key rows ≡ₚ rows.
Proof. apply merge_sort_Permutation. Qed.

Lemma StronglySorted_map {B} (R : relation B) (f : A -> B) l :
  StronglySorted (fun x y => R (f x) (f y)) l -> StronglySorted R (map f l).
Proof.
  induction 1 as [|x l Hl IH Hx]; simpl; constructor; [done|].
  apply Forall_map. exact Hx.
Qed.

Lemma order_by_text_sorted (key : A -> string) rows :
  StronglySorted text_le (map key (order_by_text key rows)).
Proof.
  apply StronglySorted_map. unfold order_by_text.
  apply StronglySorted_merge_sort.
  - intros x y z. apply text_le_trans.
  - intros x y. apply text_le_total.
Qed.

Lemma order_by_text_desc_sorted (key : A -> string) rows :
  StronglySorted (flip text_le) (map key (order_by_text_desc key rows)).
Proof.
  apply StronglySorted_map. unfold order_by_text_desc.
  apply StronglySorted_merge_sort.
  - intros x y z H1 H2. unfold flip in *. by etrans.
  - intros x y. apply text_le_total.
Qed.

Lemma order_by_int_sorted (key : A -> Z) rows :
  StronglySorted Z.le (map key (order_by_int key rows)).
Proof.
  apply StronglySorted_map. unfold order_by_int.
  apply StronglySorted_merge_sort.
  - intros x y z. lia.
  - intros x y. lia.
Qed.

(** The first row of a descending order carries the greatest key. *)
Lemma order_by_text_desc_head (key : A -> string) rows r :
  head (order_by_text_desc key rows) = Some r ->
  r ∈ rows /\ forall r', r' ∈ rows -> text_le (key r') (key r).
Proof.
  intros Hhd.
  pose proof (order_by_text_desc_sorted key rows) as Hs.
  pose proof (order_by_text_desc_Permutation key rows) as Hp.
  destruct (order_by_text_desc key rows) as [|x l]; simplify_eq/=.
  split.
  - rewrite <- Hp. left.
  - intros r' Hr'. rewrite <- Hp in Hr'.
    apply elem_of_cons in Hr' as [->|Hr']; [reflexivity|].
    apply StronglySorted_inv in Hs as [_ Hall].
    rewrite List.Forall_forall in Hall. apply Hall.
    apply in_map. by apply list_elem_of_In.
Qed.

Lemma order_by_text_desc_nil (key : A -> string) rows :
  order_by_text_desc key rows = [] <-> rows = [].
Proof.
  split.
  - intros H. pose proof (order_by_text_desc_Permutation key rows) as Hp.
    rewrite H in Hp. by apply Permutation_nil in Hp.
  - by intros ->.
Qed.

End order_by.

(** ** What a call of a reader evaluates to *)

Section reader_runs.
Import Js Runtime Sqlite Digest Spec.

Lemma world_restored w :
  {| disk := disk w;
     open_connections := Nat.pred (S (open_connections w));
     FONT_CACHE := FONT_CACHE w; trace := trace w |} = w.
Proof. by destruct w. Qed.

Lemma map_M_run {A B} (f : A -> M B) (g : A -> B) xs w :
  (forall x, f x w = (Returned (g x), w)) ->
  map_M f xs w = (Returned (map g xs), w).
Proof.
  intros Hf. induction xs as [|x xs IH]; [done|].
  simpl. unfold mbind, M_bind, bind. by rewrite Hf, IH.
Qed.

Lemma buildDigestPage_run c digest w :
  buildDigestPage c digest w = (Returned (page_in (disk w) digest), w).
Proof.
  unfold buildDigestPage, mbind, M_bind, bind. simpl.
  rewrite (map_M_run _ (country_in (disk w))); [done|]. done.
Qed.

Lemma buildWeeklyPage_run c digest w :
  buildWeeklyPage c digest w = (Returned (weekly_page_in (disk w) digest), w).
Proof. done. Qed.

(** [LIMIT 1] and then the first row: the first row. *)
Lemma head_take_1 {A} (l : list A) : head (take 1 l) = head l.
Proof. by destruct l. Qed.

Lemma getLatestDigest_run w :
  getLatestDigest w =
    (Returned (page_in (disk w) <$>
       head (order_by_text_desc DailyDigest.date (daily_digest (disk w)))),
     w).
Proof.
  unfold getLatestDigest, getDb, new_Database, try_finally, mbind, M_bind, bind.
  simpl. rewrite head_take_1.
  destruct (head _) as [row|]; simpl.
  - rewrite buildDigestPage_run. simpl. by rewrite world_restored.
  - by rewrite world_restored.
Qed.

Lemma getDigestByDate_run date w :
  getDigestByDate date w =
    (Returned (page_in (disk w) <$>
       head (where_text DailyDigest.date date (daily_digest (disk w)))),
     w).
Proof.
  unfold getDigestByDate, getDb, new_Database, try_finally, mbind, M_bind, bind.
  simpl.
  destruct (head _) as [row|]; simpl.
  - rewrite buildDigestPage_run. simpl. by rewrite world_restored.
  - by rewrite world_restored.
Qed.

Lemma getWeeklyDigest_run weekEnd w :
  getWeeklyDigest weekEnd w =
    (Returned (weekly_page_in (disk w) <$>
       head (where_text WeeklyDigest.week_end weekEnd (weekly_digest (disk w)))),
     w).
Proof.
  unfold getWeeklyDigest, getDb, new_Database, try_finally, mbind, M_bind, bind.
  simpl.
  destruct (head _) as [row|]; simpl; by rewrite world_restored.
Qed.

Lemma getAllDigestDates_run w :
  getAllDigestDates w =
    (Returned (map DailyDigest.date
       (order_by_text_desc DailyDigest.date (daily_digest (disk w)))), w).
Proof.
  unfold getAllDigestDates, getDb, new_Database, try_finally, mbind, M_bind, bind.
  simpl. by rewrite world_restored.
Qed.

Lemma getAllWeeklyDates_run w :
  getAllWeeklyDates w =
    (Returned (map WeeklyDigest.week_end
       (order_by_text_desc WeeklyDigest.week_end (weekly_digest (disk w)))), w).
Proof.
  unfold getAllWeeklyDates, getDb, new_Database, try_finally, mbind, M_bind, bind.
  simpl. by rewrite world_restored.
Qed.

(** Whatever statement is prepared on it, a read-only connection leaves
    the tables as they are. *)
Lemma readonly_connection_never_writes {R} c (s : Statement R) w :
  readonly c = true ->
  disk (run c s w).2 = disk w
  /\ disk (all c s w).2 = disk w
  /\ disk (get c s w).2 = disk w.
Proof. intros Hro. destruct s; simpl; by rewrite ?Hro. Qed.

Lemma daily_page_of_inv w page :
  daily_page_of w page ->
  exists row, row ∈ daily_digest (disk w) /\ page = page_in (disk w) row.
Proof.
  intros [H|[date H]].
  - rewrite getLatestDigest_run in H. simpl in H.
    destruct (head _) as [row|] eqn:Hrow; simplify_eq/=.
    exists row. split; [|done].
    apply head_Some_elem_of in Hrow.
    by rewrite order_by_text_desc_Permutation in Hrow.
  - rewrite getDigestByDate_run in H. simpl in H.
    destruct (head _) as [row|] eqn:Hrow; simplify_eq/=.
    exists row. split; [|done].
    apply head_Some_elem_of in Hrow.
    unfold where_text in Hrow. by apply list_elem_of_filter in Hrow as [_ ?].
Qed.

Lemma weekly_page_of_inv w page :
  weekly_page_of w page ->
  exists row, row ∈ weekly_digest (disk w) /\ page = weekly_page_in (disk w) row.
Proof.
  intros [weekEnd H].
  rewrite getWeeklyDigest_run in H. simpl in H.
  destruct (head _) as [row|] eqn:Hrow; simplify_eq/=.
  exists row. split; [|done].
  apply head_Some_elem_of in Hrow.
  unfold where_text in Hrow. by apply list_elem_of_filter in Hrow as [_ ?].
Qed.

(** The pages that the builders return are the pages of their rows. *)
Lemma page_in_is_page_of db row : is_page_of db row (page_in db row).
Proof.
  split; [done|]. split.
  { simpl. rewrite map_map. simpl. apply order_by_text_sorted. }
  exists (country_rows_in db (DailyDigest.id row)). split.
  - apply order_by_text_Permutation.
  - simpl. apply Forall2_fmap_l, Forall_Forall2_diag, Forall_forall.
    intros r _. split; [by repeat split|]. simpl. split.
    + apply order_by_int_Permutation.
    + apply order_by_int_sorted.
Qed.

Lemma weekly_page_in_is_page_of db row :
  is_weekly_page_of db row (weekly_page_in db row).
Proof.
  split; [done|]. split.
  { simpl. rewrite map_map. simpl. apply order_by_text_sorted. }
  exists (weekly_country_rows_in db (WeeklyDigest.id row)). split.
  - apply order_by_text_Permutation.
  - simpl. apply Forall2_fmap_l, Forall_Forall2_diag, Forall_forall.
    intros r _. by repeat split.
Qed.

End reader_runs.

(** ** The readers of lib/digest.ts *)

Section readers.
Import Js Runtime Sqlite Digest Spec.

(** C1. Each of the five readers opens its connection read-only and
    leaves the world exactly as it found it: the five tables are the same
    after the call as before it, no connection stays open, and nothing else
    has happened. *)
Theorem readers_leave_the_store_unchanged (w : World) (date weekEnd : string) :
  (exists c, (getDb w).1 = Returned c /\ readonly c = true)
  /\ (getLatestDigest w).2 = w
  /\ (getDigestByDate date w).2 = w
  /\ (getAllDigestDates w).2 = w
  /\ (getWeeklyDigest weekEnd w).2 = w
  /\ (getAllWeeklyDates w).2 = w.
Proof.
  split; [by eexists|].
  by rewrite getLatestDigest_run, getDigestByDate_run, getAllDigestDates_run,
    getWeeklyDigest_run, getAllWeeklyDates_run.
Qed.

(** C2. The countries of a page returned by [getLatestDigest] or
    [getDigestByDate] show exactly the rows of [country_digest] whose
    [daily_digest_id] is the id of the page's digest, one country per row,
    in ascending order of [country_name]; the countries of a page returned
    by [getWeeklyDigest] do the same for [weekly_country_digest]. *)
Theorem countries_are_the_matching_rows_by_name :
  (forall w page, daily_page_of w page ->
     exists rows,
       rows ≡ₚ filter (fun r => CountryDigestRow.daily_digest_id r
                                = DailyDigest.id (DigestPage.digest page))
                 (country_digest (disk w))
       /\ Forall2 shows_row (DigestPage.countries page) rows
       /\ StronglySorted text_le
            (map CountryDigest.country_name (DigestPage.countries page)))
  /\ (forall w page, weekly_page_of w page ->
     exists rows,
       rows ≡ₚ filter (fun r => WeeklyCountryDigestRow.weekly_digest_id r
                                = WeeklyDigest.id (WeeklyPage.digest page))
                 (weekly_country_digest (disk w))
       /\ Forall2 shows_weekly_row (WeeklyPage.countries page) rows
       /\ StronglySorted text_le
            (map WeeklyCountryDigest.country_name (WeeklyPage.countries page))).
Proof.
  split; intros w page Hpage.
  - apply daily_page_of_inv in Hpage as (row & _ & ->). simpl.
    exists (country_rows_in (disk w) (DailyDigest.id row)). split; [|split].
    + apply order_by_text_Permutation.
    + apply Forall2_fmap_l, Forall_Forall2_diag, Forall_forall.
      intros r _. by repeat split.
    + rewrite map_map. simpl. apply order_by_text_sorted.
  - apply weekly_page_of_inv in Hpage as (row & _ & ->). simpl.
    exists (weekly_country_rows_in (disk w) (WeeklyDigest.id row)).
    split; [|split].
    + apply order_by_text_Permutation.
    + apply Forall2_fmap_l, Forall_Forall2_diag, Forall_forall.
      intros r _. by repeat split.
    + rewrite map_map. simpl. apply order_by_text_sorted.
Qed.

Lemma countries_are_the_matching_rows_by_name_witness :
  (exists rows,
     rows ≡ₚ [Sample.japan; Sample.brazil]
     /\ Forall2 shows_row
          (DigestPage.countries (page_in Sample.db Sample.day1)) rows
     /\ StronglySorted text_le ["Brazil"; "Japan"])
  /\ (exists rows,
     rows ≡ₚ [Sample.week_japan; Sample.week_brazil]
     /\ Forall2 shows_weekly_row
          (WeeklyPage.countries (weekly_page_in Sample.db Sample.week1)) rows
     /\ StronglySorted text_le ["Brazil"; "Japan"]).
Proof.
  split.
  - apply (proj1 countries_are_the_matching_rows_by_name
             Sample.world (page_in Sample.db Sample.day1)).
    right. exists "2024-05-01". vm_compute. reflexivity.
  - apply (proj2 countries_are_the_matching_rows_by_name
             Sample.world (weekly_page_in Sample.db Sample.week1)).
    exists "2024-05-05". vm_compute. reflexivity.
Defined.

(** C3, as stated, does not hold: on the sample store the releases of
    Japan come back as "Tariff schedule revised" before "Harbour expansion
    approved". They are ordered by no text attribute of a release: not by
    title, not by summary, not by URL. *)
Lemma releases_not_ordered_by_name :
  exists page c,
    daily_page_of Sample.world page
    /\ c ∈ DigestPage.countries page
    /\ ~ Sorted text_le (map ReleaseSummary.title (CountryDigest.releases c))
    /\ ~ Sorted text_le (map ReleaseSummary.summary (CountryDigest.releases c))
    /\ ~ Sorted text_le (map ReleaseSummary.original_url (CountryDigest.releases c)).
Proof.
  exists (page_in Sample.db Sample.day1), (country_in Sample.db Sample.japan).
  split; [|split; [|repeat split]].
  - right. exists "2024-05-01". vm_compute. reflexivity.
  - vm_compute. right. left.
  - vm_compute. intros H. inversion H as [|? ? _ Hhd]; subst.
    inversion Hhd as [|? ? Hle]; subst. discriminate Hle.
  - vm_compute. intros H. inversion H as [|? ? _ Hhd]; subst.
    inversion Hhd as [|? ? Hle]; subst. discriminate Hle.
  - vm_compute. intros H. inversion H as [|? ? _ Hhd]; subst.
    inversion Hhd as [|? ? Hle]; subst. discriminate Hle.
Qed.

(** C3, amended. The releases of every country of a page returned by
    [getLatestDigest] or [getDigestByDate] are exactly the rows of
    [release_summary] whose [country_digest_id] is the id of that country,
    in ascending order of their row [id]. *)
Theorem releases_are_ordered_by_id (w : World) (page : DigestPage.t)
    (c : CountryDigest.t) :
  daily_page_of w page ->
  c ∈ DigestPage.countries page ->
  CountryDigest.releases c
    ≡ₚ filter (fun r => ReleaseSummary.country_digest_id r = CountryDigest.id c)
         (release_summary (disk w))
  /\ StronglySorted Z.le (map ReleaseSummary.id (CountryDigest.releases c)).
Proof.
  intros Hpage Hc.
  apply daily_page_of_inv in Hpage as (row & _ & ->). simpl in Hc.
  apply list_elem_of_In, in_map_iff in Hc as (r & <- & _). simpl. split.
  - apply order_by_int_Permutation.
  - apply order_by_int_sorted.
Qed.

Lemma releases_are_ordered_by_id_witness :
  CountryDigest.releases (country_in Sample.db Sample.japan)
    ≡ₚ [Sample.tariffs; Sample.ports]
  /\ StronglySorted Z.le [100; 101].
Proof.
  apply (releases_are_ordered_by_id Sample.world
           (page_in Sample.db Sample.day1) (country_in Sample.db Sample.japan)).
  - right. exists "2024-05-01". vm_compute. reflexivity.
  - vm_compute. right. left.
Defined.

(** C4. [getAllDigestDates] returns the [date] values of [daily_digest],
    each as often as it is stored, in descending order, and
    [getAllWeeklyDates] returns the [week_end] values of [weekly_digest] in
    the same way. *)
Theorem all_dates_descending (w : World) :
  (exists dates,
     (getAllDigestDates w).1 = Returned dates
     /\ dates ≡ₚ map DailyDigest.date (daily_digest (disk w))
     /\ (forall d, d ∈ dates <-> exists r, r ∈ daily_digest (disk w)
                                          /\ DailyDigest.date r = d)
     /\ StronglySorted (flip text_le) dates)
  /\ (exists dates,
     (getAllWeeklyDates w).1 = Returned dates
     /\ dates ≡ₚ map WeeklyDigest.week_end (weekly_digest (disk w))
     /\ (forall d, d ∈ dates <-> exists r, r ∈ weekly_digest (disk w)
                                          /\ WeeklyDigest.week_end r = d)
     /\ StronglySorted (flip text_le) dates).
Proof.
  split.
  - rewrite getAllDigestDates_run. eexists. split; [done|]. split; [|split].
    + apply Permutation_map, order_by_text_desc_Permutation.
    + intros d. rewrite list_elem_of_In, in_map_iff.
      setoid_rewrite <- list_elem_of_In.
      setoid_rewrite (order_by_text_desc_Permutation DailyDigest.date).
      split; [intros (r & <- & Hr)|intros (r & Hr & <-)]; eauto.
    + apply order_by_text_desc_sorted.
  - rewrite getAllWeeklyDates_run. eexists. split; [done|]. split; [|split].
    + apply Permutation_map, order_by_text_desc_Permutation.
    + intros d. rewrite list_elem_of_In, in_map_iff.
      setoid_rewrite <- list_elem_of_In.
      setoid_rewrite (order_by_text_desc_Permutation WeeklyDigest.week_end).
      split; [intros (r & <- & Hr)|intros (r & Hr & <-)]; eauto.
    + apply order_by_text_desc_sorted.
Qed.

(** C5. With at least one row in [daily_digest], [getLatestDigest]
    returns the page of a row of the table whose [date] no other row's date
    exceeds: the page carries that row, the countries that point to it in
    ascending order of name, and for each country the releases that point
    to it. With an empty table it returns null. *)
Theorem latest_digest_has_the_greatest_date (w : World) :
  (daily_digest (disk w) = [] -> (getLatestDigest w).1 = Returned None)
  /\ (daily_digest (disk w) <> [] ->
      exists row page,
        (getLatestDigest w).1 = Returned (Some page)
        /\ row ∈ daily_digest (disk w)
        /\ (forall r, r ∈ daily_digest (disk w) ->
              text_le (DailyDigest.date r) (DailyDigest.date row))
        /\ DigestPage.digest page = row
        /\ (buildDigestPage reader_connection row w).1 = Returned page
        /\ is_page_of (disk w) row page
        /\ page = page_in (disk w) row).
Proof.
  rewrite getLatestDigest_run. split.
  - intros ->. done.
  - intros Hne.
    destruct (head (order_by_text_desc DailyDigest.date (daily_digest (disk w))))
      as [row|] eqn:Hhd.
    + apply order_by_text_desc_head in Hhd as [Hin Hmax].
      exists row, (page_in (disk w) row). rewrite buildDigestPage_run.
      pose proof (page_in_is_page_of (disk w) row). done.
    + apply head_None, order_by_text_desc_nil in Hhd. done.
Qed.

Lemma latest_digest_has_the_greatest_date_witness :
  (getLatestDigest Sample.empty_world).1 = Returned None
  /\ exists row page,
       (getLatestDigest Sample.world).1 = Returned (Some page)
       /\ row ∈ daily_digest (disk Sample.world)
       /\ (forall r, r ∈ daily_digest (disk Sample.world) ->
             text_le (DailyDigest.date r) (DailyDigest.date row))
       /\ DigestPage.digest page = row
       /\ (buildDigestPage reader_connection row Sample.world).1 = Returned page
       /\ is_page_of (disk Sample.world) row page
       /\ page = page_in (disk Sample.world) row.
Proof.
  split.
  - apply (proj1 (latest_digest_has_the_greatest_date Sample.empty_world)).
    reflexivity.
  - apply (proj2 (latest_digest_has_the_greatest_date Sample.world)).
    simpl. discriminate.
Defined.

(** On the sample store the latest page is the one of 2024-05-02, with
    India as its only country. *)
Example latest_digest_on_the_sample :
  exists page,
    (getLatestDigest Sample.world).1 = Returned (Some page)
    /\ DigestPage.digest page = Sample.day2
    /\ map CountryDigest.country_name (DigestPage.countries page) = ["India"]
    /\ map CountryDigest.releases (DigestPage.countries page) = [[]].
Proof. eexists. vm_compute. repeat split. Qed.

(** C6. [getDigestByDate d] returns null exactly when no row of
    [daily_digest] has the date [d], and otherwise the page of a row with
    that date: the page carries the row, the countries that point to it in
    ascending order of name, and for each country the releases that point
    to it. [getWeeklyDigest e] does the same for [weekly_digest],
    [week_end] and the weekly countries. *)
Theorem digest_by_date_null_iff_absent (w : World) (d e : string) :
  (((getDigestByDate d w).1 = Returned None
     <-> ~ exists r, r ∈ daily_digest (disk w) /\ DailyDigest.date r = d)
   /\ ((exists r, r ∈ daily_digest (disk w) /\ DailyDigest.date r = d) ->
       exists row page,
         (getDigestByDate d w).1 = Returned (Some page)
         /\ row ∈ daily_digest (disk w)
         /\ DailyDigest.date row = d
         /\ DigestPage.digest page = row
         /\ (buildDigestPage reader_connection row w).1 = Returned page
         /\ is_page_of (disk w) row page
         /\ page = page_in (disk w) row))
  /\ (((getWeeklyDigest e w).1 = Returned None
     <-> ~ exists r, r ∈ weekly_digest (disk w) /\ WeeklyDigest.week_end r = e)
   /\ ((exists r, r ∈ weekly_digest (disk w) /\ WeeklyDigest.week_end r = e) ->
       exists row page,
         (getWeeklyDigest e w).1 = Returned (Some page)
         /\ row ∈ weekly_digest (disk w)
         /\ WeeklyDigest.week_end row = e
         /\ WeeklyPage.digest page = row
         /\ (buildWeeklyPage reader_connection row w).1 = Returned page
         /\ is_weekly_page_of (disk w) row page
         /\ page = weekly_page_in (disk w) row)).
Proof.
  rewrite getDigestByDate_run, getWeeklyDigest_run. unfold where_text.
  split.
  - destruct (head (filter _ (daily_digest (disk w)))) as [row|] eqn:Hhd; simpl.
    + apply head_Some_elem_of, list_elem_of_filter in Hhd as [Hd Hin].
      split.
      * split; [done|]. intros Hno. destruct Hno. eauto.
      * intros _. exists row, (page_in (disk w) row).
        rewrite buildDigestPage_run.
        pose proof (page_in_is_page_of (disk w) row). done.
    + apply head_None in Hhd.
      assert (Hno : ~ exists r, r ∈ daily_digest (disk w) /\ DailyDigest.date r = d).
      { intros (r & Hin & Hd).
        assert (Hr : r ∈ filter (fun r => DailyDigest.date r = d)
                       (daily_digest (disk w)))
          by by apply list_elem_of_filter.
        rewrite Hhd in Hr. by apply elem_of_nil in Hr. }
      split; [done|]. intros Hex. by destruct Hno.
  - destruct (head (filter _ (weekly_digest (disk w)))) as [row|] eqn:Hhd; simpl.
    + apply head_Some_elem_of, list_elem_of_filter in Hhd as [Hd Hin].
      split.
      * split; [done|]. intros Hno. destruct Hno. eauto.
      * intros _. exists row, (weekly_page_in (disk w) row).
        pose proof (weekly_page_in_is_page_of (disk w) row). done.
    + apply head_None in Hhd.
      assert (Hno : ~ exists r, r ∈ weekly_digest (disk w)
                               /\ WeeklyDigest.week_end r = e).
      { intros (r & Hin & Hd).
        assert (Hr : r ∈ filter (fun r => WeeklyDigest.week_end r = e)
                       (weekly_digest (disk w)))
          by by apply list_elem_of_filter.
        rewrite Hhd in Hr. by apply elem_of_nil in Hr. }
      split; [done|]. intros Hex. by destruct Hno.
Qed.

Lemma digest_by_date_null_iff_absent_witness :
  (exists row page,
     (getDigestByDate "2024-05-01" Sample.world).1 = Returned (Some page)
     /\ row ∈ daily_digest (disk Sample.world)
     /\ DailyDigest.date row = "2024-05-01"
     /\ DigestPage.digest page = row
     /\ (buildDigestPage reader_connection row Sample.world).1 = Returned page
     /\ is_page_of (disk Sample.world) row page
     /\ page = page_in (disk Sample.world) row)
  /\ (exists row page,
     (getWeeklyDigest "2024-05-05" Sample.world).1 = Returned (Some page)
     /\ row ∈ weekly_digest (disk Sample.world)
     /\ WeeklyDigest.week_end row = "2024-05-05"
     /\ WeeklyPage.digest page = row
     /\ (buildWeeklyPage reader_connection row Sample.world).1 = Returned page
     /\ is_weekly_page_of (disk Sample.world) row page
     /\ page = weekly_page_in (disk Sample.world) row)
  /\ (getDigestByDate "2024-05-03" Sample.world).1 = Returned None
  /\ (getWeeklyDigest "2024-05-12" Sample.world).1 = Returned None.
Proof.
  pose proof (digest_by_date_null_iff_absent
                Sample.world "2024-05-01" "2024-05-05") as [[_ Hd] [_ Hw]].
  pose proof (digest_by_date_null_iff_absent
                Sample.world "2024-05-03" "2024-05-12") as [[Hd' _] [Hw' _]].
  split; [|split; [|split]].
  - apply Hd. exists Sample.day1. split; [|reflexivity]. left.
  - apply Hw. exists Sample.week1. split; [|reflexivity]. left.
  - apply Hd'. intros (r & Hin & Hr). simpl in Hin.
    repeat (apply elem_of_cons in Hin as [->|Hin]; [discriminate Hr|]).
    by apply elem_of_nil in Hin.
  - apply Hw'. intros (r & Hin & Hr). simpl in Hin.
    repeat (apply elem_of_cons in Hin as [->|Hin]; [discriminate Hr|]).
    by apply elem_of_nil in Hin.
Defined.

(** On the sample store the page of 2024-05-01 has Brazil before Japan,
    Japan with its two releases in the order of their ids, and the weekly
    page of 2024-05-05 has Brazil before Japan. *)
Example digest_by_date_on_the_sample :
  (exists page,
     (getDigestByDate "2024-05-01" Sample.world).1 = Returned (Some page)
     /\ DigestPage.digest page = Sample.day1
     /\ map CountryDigest.country_name (DigestPage.countries page)
        = ["Brazil"; "Japan"]
     /\ map CountryDigest.title (DigestPage.countries page)
        = [""; "Japan on trade"]
     /\ map CountryDigest.releases (DigestPage.countries page)
        = [[Sample.vaccines]; [Sample.tariffs; Sample.ports]])
  /\ (exists page,
     (getWeeklyDigest "2024-05-05" Sample.world).1 = Returned (Some page)
     /\ WeeklyPage.digest page = Sample.week1
     /\ map WeeklyCountryDigest.country_name (WeeklyPage.countries page)
        = ["Brazil"; "Japan"]
     /\ map WeeklyCountryDigest.title (WeeklyPage.countries page)
        = [""; "Japan this week"]).
Proof. split; eexists; vm_compute; repeat split. Qed.

End readers.

(** ** The country tables *)

Section country_tables.
Import Js Constants.

(** C7. The two tables have the same 31 country codes as their keys, no
    code is written twice, every code has a display name and a flag, no
    other code has either, and EU, UN and WHO are among them. *)
Theorem country_tables_agree :
  size COUNTRY_NAMES = 31%nat
  /\ size COUNTRY_FLAGS = 31%nat
  /\ NoDup (map fst COUNTRY_NAMES_entries)
  /\ map fst COUNTRY_FLAGS_entries = map fst COUNTRY_NAMES_entries
  /\ dom COUNTRY_NAMES = dom COUNTRY_FLAGS
  /\ (forall code : string,
        is_Some (COUNTRY_NAMES !! code) <-> is_Some (COUNTRY_FLAGS !! code))
  /\ is_Some (COUNTRY_NAMES !! "EU") /\ is_Some (COUNTRY_FLAGS !! "EU")
  /\ is_Some (COUNTRY_NAMES !! "UN") /\ is_Some (COUNTRY_FLAGS !! "UN")
  /\ is_Some (COUNTRY_NAMES !! "WHO") /\ is_Some (COUNTRY_FLAGS !! "WHO").
Proof.
  assert (Hdom : dom COUNTRY_NAMES = dom COUNTRY_FLAGS)
    by (vm_compute; reflexivity).
  split; [vm_compute; reflexivity|].
  split; [vm_compute; reflexivity|].
  split; [apply (bool_decide_unpack (NoDup _)); vm_compute; exact I|].
  split; [vm_compute; reflexivity|].
  split; [exact Hdom|].
  split.
  { intros code. rewrite <- !elem_of_dom. by rewrite Hdom. }
  repeat split; vm_compute; eauto.
Qed.

End country_tables.

(** ** lib/og.ts and the OG routes *)

Section og.
Import Js Runtime Satori Http Og Spec.

Lemma slice_prefix (s : jsstring) (n : nat) :
  (n <= length s)%nat -> slice s 0 (Z.of_nat n) = take n s.
Proof.
  intros Hn. unfold slice, clamp_index, jslength.
  change (0 <? 0) with false. cbv iota.
  destruct (Z.ltb_spec (Z.of_nat n) 0) as [Hneg|_]; [lia|].
  rewrite (Z.min_l 0) by lia. rewrite (Z.min_l (Z.of_nat n)) by lia.
  rewrite Z.sub_0_r, Nat2Z.id. done.
Qed.

(** The conditional of the source is [cut_to]. *)
Lemma truncation_is_cut_to (s : jsstring) (limit : nat) :
  (3 <= limit)%nat ->
  (if jslength s >? Z.of_nat limit
   then slice s 0 (Z.of_nat (limit - 3)) ++ js "..."
   else s) = cut_to limit s.
Proof.
  intros Hl. unfold cut_to, jslength. case_decide as Hlen.
  - destruct (Z.gtb_spec (Z.of_nat (length s)) (Z.of_nat limit)); [lia|done].
  - destruct (Z.gtb_spec (Z.of_nat (length s)) (Z.of_nat limit)); [|lia].
    rewrite slice_prefix by lia. done.
Qed.

Lemma cut_to_length (s : jsstring) (limit : nat) :
  (3 <= limit)%nat -> (length (cut_to limit s) <= limit)%nat.
Proof.
  intros Hl. unfold cut_to. case_decide as Hlen; [done|].
  rewrite length_app, length_take. simpl. lia.
Qed.

Lemma og_tree_texts headline description dateLabel :
  headline_text (og_tree headline (cut_to 140 description) dateLabel)
    = Some (cut_to 90 headline)
  /\ description_text (og_tree headline (cut_to 140 description) dateLabel)
    = Some (cut_to 140 description).
Proof.
  split; [|reflexivity].
  change (Some (if jslength headline >? 90
                then slice headline 0 87 ++ js "..."
                else headline) = Some (cut_to 90 headline)).
  f_equal. apply (truncation_is_cut_to headline 90). lia.
Qed.

(** What a call of [generateOgImage] evaluates to, by the state of the
    font cache and the answers of the CDN. *)
Lemma generateOgImage_run P headline description dateLabel w :
  let tree := og_tree headline (cut_to 140 description) dateLabel in
  generateOgImage P headline description dateLabel w =
    match regular (FONT_CACHE w) with
    | Some _ =>
        let options := og_options (FONT_CACHE w) in
        (Returned (sharp_png P (satori P tree options)),
         {| disk := disk w; open_connections := open_connections w;
            FONT_CACHE := FONT_CACHE w;
            trace := (trace w ++ [SatoriCall tree options])
                       ++ [SharpCall (satori P tree options)] |})
    | None =>
        match cdn P regular_url, cdn P bold_url with
        | Some r, Some b =>
            let fonts := {| regular := Some r; bold := Some b |} in
            let options := og_options fonts in
            (Returned (sharp_png P (satori P tree options)),
             {| disk := disk w; open_connections := open_connections w;
                FONT_CACHE := fonts;
                trace := (((trace w ++ [Fetch regular_url])
                             ++ [Fetch bold_url])
                            ++ [SatoriCall tree options])
                           ++ [SharpCall (satori P tree options)] |})
        | _, _ =>
            (Thrown (TypeError "fetch failed"),
             {| disk := disk w; open_connections := open_connections w;
                FONT_CACHE := FONT_CACHE w;
                trace := (trace w ++ [Fetch regular_url])
                           ++ [Fetch bold_url] |})
        end
    end.
Proof.
  intros tree. subst tree.
  rewrite <- (truncation_is_cut_to description 140) by lia.
  unfold generateOgImage, loadFonts, mbind, M_bind, bind. simpl.
  destruct (regular (FONT_CACHE w)) as [r|] eqn:Hr; simpl; [done|].
  destruct (cdn P regular_url) as [r|], (cdn P bold_url) as [b|]; done.
Qed.

(** C8. When no row of [daily_digest] has the requested date, the daily
    route answers with status 404 and the world is as before: no font was
    fetched, satori and sharp were not called. The weekly route does the
    same when no row of [weekly_digest] has the requested week end. *)
Theorem og_routes_answer_404_and_draw_nothing
    (P : Platform) (w : World) (date : jsstring) :
  ((forall r, r ∈ daily_digest (disk w) ->
      DailyDigest.date r <> encode_text P date) ->
   (OgDaily.GET P date w).1 = Returned not_found
   /\ status not_found = 404
   /\ trace (OgDaily.GET P date w).2 = trace w
   /\ (OgDaily.GET P date w).2 = w)
  /\ ((forall r, r ∈ weekly_digest (disk w) ->
      WeeklyDigest.week_end r <> encode_text P date) ->
   (OgWeekly.GET P date w).1 = Returned not_found
   /\ status not_found = 404
   /\ trace (OgWeekly.GET P date w).2 = trace w
   /\ (OgWeekly.GET P date w).2 = w).
Proof.
  split; intros Habsent.
  - unfold OgDaily.GET, mbind, M_bind, bind.
    rewrite getDigestByDate_run.
    destruct (head _) as [row|] eqn:Hhd; simpl; [|done].
    apply head_Some_elem_of, list_elem_of_filter in Hhd as [Hd Hin].
    by destruct (Habsent row Hin).
  - unfold OgWeekly.GET, mbind, M_bind, bind.
    rewrite getWeeklyDigest_run.
    destruct (head _) as [row|] eqn:Hhd; simpl; [|done].
    apply head_Some_elem_of, list_elem_of_filter in Hhd as [Hd Hin].
    by destruct (Habsent row Hin).
Qed.

Lemma og_routes_answer_404_and_draw_nothing_witness :
  ((OgDaily.GET Sample.platform (js "2024-05-03") Sample.world).1
     = Returned not_found
   /\ status not_found = 404
   /\ trace (OgDaily.GET Sample.platform (js "2024-05-03") Sample.world).2 = []
   /\ (OgDaily.GET Sample.platform (js "2024-05-03") Sample.world).2
      = Sample.world)
  /\ ((OgWeekly.GET Sample.platform (js "2024-05-03") Sample.world).1
     = Returned not_found
   /\ status not_found = 404
   /\ trace (OgWeekly.GET Sample.platform (js "2024-05-03") Sample.world).2 = []
   /\ (OgWeekly.GET Sample.platform (js "2024-05-03") Sample.world).2
      = Sample.world).
Proof.
  pose proof (og_routes_answer_404_and_draw_nothing
                Sample.platform Sample.world (js "2024-05-03")) as [Hd Hw].
  split.
  - apply Hd. intros r Hin Hr. simpl in Hin.
    repeat (apply elem_of_cons in Hin as [->|Hin]; [vm_compute in Hr; discriminate Hr|]).
    by apply elem_of_nil in Hin.
  - apply Hw. intros r Hin Hr. simpl in Hin.
    repeat (apply elem_of_cons in Hin as [->|Hin]; [vm_compute in Hr; discriminate Hr|]).
    by apply elem_of_nil in Hin.
Defined.

(** For contrast: with a digest for the date the daily route answers 200
    with a PNG body, after fetching both fonts and calling satori and
    sharp once each. *)
Example og_daily_route_draws_when_found :
  exists png tree options svg,
    OgDaily.GET Sample.platform (js "2024-05-02") Sample.world
    = (Returned {| body := BufferBody png; status := 200;
                   headers := [("Content-Type", "image/png")] |},
       {| disk := Sample.db; open_connections := 0;
          FONT_CACHE := {| regular := Some (js regular_url);
                           bold := Some (js bold_url) |};
          trace := [Fetch regular_url; Fetch bold_url;
                    SatoriCall tree options; SharpCall svg] |})
    /\ headline_text tree = Some (js "Government Press Digest")
    /\ description_text tree = Some (js "One government spoke.").
Proof. do 4 eexists. vm_compute. repeat split. Qed.

(** C9. The description that [generateOgImage] puts into the element
    tree it hands to satori is the description itself when it has at most
    140 code units, and otherwise its first 137 code units followed by three
    dots; the headline is treated the same way with 90 and 87. Neither text
    in the tree is longer than its limit. Every call of satori that
    [generateOgImage] makes carries these texts, and the call is made, and
    its picture returned, whenever the fonts are cached or the CDN serves
    them. *)
Theorem og_image_texts_are_cut
    (P : Platform) (headline description dateLabel : jsstring) (w : World) :
  let shown_description := cut_to 140 description in
  let shown_headline := cut_to 90 headline in
  let run := generateOgImage P headline description dateLabel w in
  ((length description <= 140)%nat -> shown_description = description)
  /\ ((140 < length description)%nat ->
      shown_description = take 137 description ++ js "...")
  /\ ((length headline <= 90)%nat -> shown_headline = headline)
  /\ ((90 < length headline)%nat ->
      shown_headline = take 87 headline ++ js "...")
  /\ jslength shown_description <= 140
  /\ jslength shown_headline <= 90
  /\ (exists events,
       trace run.2 = trace w ++ events
       /\ forall tree options, SatoriCall tree options ∈ events ->
            description_text tree = Some shown_description
            /\ headline_text tree = Some shown_headline)
  /\ (is_Some (regular (FONT_CACHE w))
        \/ (is_Some (cdn P regular_url) /\ is_Some (cdn P bold_url)) ->
      exists tree options,
        run.1 = Returned (sharp_png P (satori P tree options))
        /\ SatoriCall tree options ∈ trace run.2
        /\ description_text tree = Some shown_description
        /\ headline_text tree = Some shown_headline).
Proof.
  intros shown_description shown_headline run.
  pose proof (og_tree_texts headline description dateLabel) as [Hh Hd].
  split; [intros Hle; unfold shown_description, cut_to; by case_decide|].
  split; [intros Hgt; unfold shown_description, cut_to; case_decide; [lia|done]|].
  split; [intros Hle; unfold shown_headline, cut_to; by case_decide|].
  split; [intros Hgt; unfold shown_headline, cut_to; case_decide; [lia|done]|].
  split; [pose proof (cut_to_length description 140); unfold jslength,
            shown_description; lia|].
  split; [pose proof (cut_to_length headline 90); unfold jslength,
            shown_headline; lia|].
  subst run. rewrite generateOgImage_run.
  destruct (regular (FONT_CACHE w)) as [r|] eqn:Hr.
  - split.
    + eexists [_; _]. simpl. split; [by rewrite <- app_assoc|].
      intros tree options Hin.
      apply elem_of_cons in Hin as [Heq|Hin]; [by simplify_eq|].
      apply elem_of_cons in Hin as [Heq|Hin]; [done|].
      by apply elem_of_nil in Hin.
    + intros _. do 2 eexists. simpl. split; [done|]. split; [|done].
      rewrite !elem_of_app, !elem_of_cons. left. right. by left.
  - destruct (cdn P regular_url) as [fr|] eqn:Hfr,
      (cdn P bold_url) as [fb|] eqn:Hfb.
    + split.
      * eexists [_; _; _; _]. simpl. split; [by rewrite <- !app_assoc|].
        intros tree options Hin.
        apply elem_of_cons in Hin as [Heq|Hin]; [done|].
        apply elem_of_cons in Hin as [Heq|Hin]; [done|].
        apply elem_of_cons in Hin as [Heq|Hin]; [by simplify_eq|].
        apply elem_of_cons in Hin as [Heq|Hin]; [done|].
        by apply elem_of_nil in Hin.
      * intros _. do 2 eexists. simpl. split; [done|]. split; [|done].
        rewrite !elem_of_app, !elem_of_cons. left. right. by left.
    + split.
      * eexists [_; _]. simpl. split; [by rewrite <- !app_assoc|].
        intros tree options Hin.
        apply elem_of_cons in Hin as [Heq|Hin]; [done|].
        apply elem_of_cons in Hin as [Heq|Hin]; [done|].
        by apply elem_of_nil in Hin.
      * intros [[? Hs]|[_ [? Hs]]]; done.
    + split.
      * eexists [_; _]. simpl. split; [by rewrite <- !app_assoc|].
        intros tree options Hin.
        apply elem_of_cons in Hin as [Heq|Hin]; [done|].
        apply elem_of_cons in Hin as [Heq|Hin]; [done|].
        by apply elem_of_nil in Hin.
      * intros [[? Hs]|[[? Hs] _]]; done.
    + split.
      * eexists [_; _]. simpl. split; [by rewrite <- !app_assoc|].
        intros tree options Hin.
        apply elem_of_cons in Hin as [Heq|Hin]; [done|].
        apply elem_of_cons in Hin as [Heq|Hin]; [done|].
        by apply elem_of_nil in Hin.
      * intros [[? Hs]|[[? Hs] _]]; done.
Qed.

Lemma og_image_texts_are_cut_witness :
  exists tree options,
    (generateOgImage Sample.platform Sample.long_text Sample.long_text
       (js "May 2, 2024") Sample.world).1
      = Returned (sharp_png Sample.platform
                    (satori Sample.platform tree options))
    /\ SatoriCall tree options
         ∈ trace (generateOgImage Sample.platform Sample.long_text
                    Sample.long_text (js "May 2, 2024") Sample.world).2
    /\ description_text tree = Some (cut_to 140 Sample.long_text)
    /\ headline_text tree = Some (cut_to 90 Sample.long_text).
Proof.
  pose proof (og_image_texts_are_cut Sample.platform Sample.long_text
                Sample.long_text (js "May 2, 2024") Sample.world) as H.
  cbv zeta in H.
  destruct H as (_ & _ & _ & _ & _ & _ & _ & Hrun).
  apply Hrun. right. split; by eexists.
Defined.

Example long_text_is_cut :
  Sample.long_text = repeat 120%N 150
  /\ cut_to 140 Sample.long_text = repeat 120%N 137 ++ js "..."
  /\ cut_to 90 Sample.long_text = repeat 120%N 87 ++ js "...".
Proof. repeat split; vm_compute; reflexivity. Qed.

End og.

(** ** [prevDate] and [nextDate] *)

Section dates.
Import Js JsDate Constants Calendar.

Lemma DaysInYear_cases y :
  (DaysInYear y = 366 /\ is_leap y = true /\ leap_flag y = 1
     /\ y mod 4 = 0 /\ (y mod 100 <> 0 \/ y mod 400 = 0))
  \/ (DaysInYear y = 365 /\ is_leap y = false /\ leap_flag y = 0
     /\ (y mod 4 <> 0 \/ (y mod 100 = 0 /\ y mod 400 <> 0))).
Proof.
  unfold leap_flag, DaysInYear, is_leap.
  destruct (Z.eqb_spec (y mod 4) 0), (Z.eqb_spec (y mod 100) 0),
    (Z.eqb_spec (y mod 400) 0); simpl; lia.
Qed.

Lemma DayFromYear_step y : DayFromYear (y + 1) = DayFromYear y + DaysInYear y.
Proof.
  destruct (DaysInYear_cases y) as [(-> & _ & _ & H)|(-> & _ & _ & H)];
    unfold DayFromYear; Z.div_mod_to_equations; lia.
Qed.

Lemma year_estimate y D :
  DayFromYear y <= D < DayFromYear (y + 1) ->
  y - 1 <= 1970 + (400 * D) / 146097 <= y + 1.
Proof.
  rewrite DayFromYear_step.
  destruct (DaysInYear_cases y) as [(-> & _ & _ & H)|(-> & _ & _ & H)];
    unfold DayFromYear; Z.div_mod_to_equations; lia.
Qed.

Lemma DaysInYear_bounds y : 365 <= DaysInYear y <= 366.
Proof. destruct (DaysInYear_cases y) as [(-> & _)|(-> & _)]; lia. Qed.

(** [YearFromTime] finds the year whose days contain the day of [t]. *)
Lemma YearFromTime_spec y t :
  DayFromYear y <= Day t < DayFromYear (y + 1) -> YearFromTime t = y.
Proof.
  intros Hy. pose proof (year_estimate y (Day t) Hy) as Hest.
  unfold YearFromTime. cbv zeta.
  remember (1970 + 400 * Day t / 146097) as y0 eqn:Hy0. clear Hy0.
  pose proof (DayFromYear_step y) as Hs1.
  pose proof (DayFromYear_step (y - 1)) as Hs0.
  pose proof (DayFromYear_step (y + 1)) as Hs2.
  pose proof (DaysInYear_bounds y). pose proof (DaysInYear_bounds (y - 1)).
  pose proof (DaysInYear_bounds (y + 1)).
  replace (y - 1 + 1) with y in Hs0 by lia.
  assert (Hc : y0 = y - 1 \/ y0 = y \/ y0 = y + 1) by lia.
  destruct Hc as [->|[->| ->]].
  - replace (y - 1 + 1) with y by lia.
    destruct (Z.gtb_spec (DayFromYear (y - 1)) (Day t)); [lia|].
    destruct (Z.leb_spec (DayFromYear y) (Day t)); lia.
  - destruct (Z.gtb_spec (DayFromYear y) (Day t)); [lia|].
    destruct (Z.leb_spec (DayFromYear (y + 1)) (Day t)); lia.
  - destruct (Z.gtb_spec (DayFromYear (y + 1)) (Day t)); lia.
Qed.

Lemma Day_MakeDate D tod :
  0 <= tod < msPerDay ->
  Day (MakeDate D tod) = D /\ TimeWithinDay (MakeDate D tod) = tod.
Proof.
  unfold Day, TimeWithinDay, MakeDate, msPerDay. intros H.
  Z.div_mod_to_equations. lia.
Qed.

Lemma MakeDay_day_number y m d :
  1 <= m <= 12 -> MakeDay y (m - 1) d = day_number y m d.
Proof.
  intros Hm. unfold MakeDay, day_number, leap_flag. cbv zeta.
  replace ((m - 1) / 12) with 0 by (Z.div_mod_to_equations; lia).
  replace ((m - 1) mod 12) with (m - 1) by (Z.div_mod_to_equations; lia).
  by rewrite Z.add_0_r.
Qed.

Lemma month_cases m : 1 <= m <= 12 ->
  m = 1 \/ m = 2 \/ m = 3 \/ m = 4 \/ m = 5 \/ m = 6 \/ m = 7 \/ m = 8
  \/ m = 9 \/ m = 10 \/ m = 11 \/ m = 12.
Proof. lia. Qed.

Lemma day_number_in_year y m d :
  calendar_day y m d ->
  DayFromYear y <= day_number y m d < DayFromYear (y + 1).
Proof.
  intros [Hm Hd]. rewrite DayFromYear_step. unfold day_number.
  destruct (DaysInYear_cases y) as [(-> & Hl & -> & _)|(-> & Hl & -> & _)];
    destruct (month_cases m Hm) as [->|[->|[->|[->|[->|[->|[->|[->|[->|[->|[->| ->]]]]]]]]]]];
    unfold days_in_month in Hd; rewrite ?Hl in Hd; simpl; lia.
Qed.

(** The fields of a time value made from a calendar day. *)
Lemma fields_of_calendar_day y m d tod :
  calendar_day y m d -> 0 <= tod < msPerDay ->
  let t := MakeDate (day_number y m d) tod in
  YearFromTime t = y /\ MonthFromTime t = m - 1 /\ DateFromTime t = d
  /\ TimeWithinDay t = tod.
Proof.
  intros Hc Htod t.
  destruct (Day_MakeDate (day_number y m d) tod Htod) as [HD HT].
  fold t in HD, HT.
  assert (HY : YearFromTime t = y).
  { apply YearFromTime_spec. rewrite HD. by apply day_number_in_year. }
  assert (HW : DayWithinYear t = month_start (m - 1) (leap_flag y) + d - 1).
  { unfold DayWithinYear. rewrite HY, HD. unfold day_number. lia. }
  assert (HL : InLeapYear t = leap_flag y).
  { unfold InLeapYear, leap_flag. by rewrite HY. }
  assert (HM : MonthFromTime t = m - 1).
  { unfold MonthFromTime. rewrite HW, HL. cbv zeta.
    destruct Hc as [Hm Hd].
    destruct (DaysInYear_cases y) as [(_ & Hl & -> & _)|(_ & Hl & -> & _)];
      destruct (month_cases m Hm) as [->|[->|[->|[->|[->|[->|[->|[->|[->|[->|[->| ->]]]]]]]]]]];
      unfold days_in_month in Hd; rewrite ?Hl in Hd; simpl in Hd |- *;
      repeat (match goal with
              | |- context [?a <? ?b] => destruct (Z.ltb_spec a b); try lia
              end); lia. }
  split; [done|]. split; [done|]. split; [|done].
  unfold DateFromTime. rewrite HM, HW, HL. cbv zeta.
  destruct Hc as [Hm Hd].
  destruct (month_cases m Hm) as [->|[->|[->|[->|[->|[->|[->|[->|[->|[->|[->| ->]]]]]]]]]]];
    simpl; lia.
Qed.

(** *** Reading and writing the digits *)

Lemma digit_digit_at v k : digit (digit_at v k) = Some ((v / 10 ^ k) mod 10).
Proof.
  unfold digit, digit_at. cbv zeta.
  pose proof (Z.mod_pos_bound (v / 10 ^ k) 10 ltac:(lia)) as Hr.
  rewrite Z2N.id by lia.
  destruct (Z.leb_spec 48 (48 + (v / 10 ^ k) mod 10)); [|lia].
  destruct (Z.leb_spec (48 + (v / 10 ^ k) mod 10) 57); [|lia].
  simpl. f_equal. lia.
Qed.

Lemma digit_at_not_sign v k :
  (digit_at v k =? 43)%N = false /\ (digit_at v k =? 45)%N = false.
Proof.
  unfold digit_at.
  pose proof (Z.mod_pos_bound (v / 10 ^ k) 10 ltac:(lia)) as Hr.
  split; apply N.eqb_neq; lia.
Qed.

Lemma pad2_digits v acc : pad 2 v acc = digit_at v 1 :: digit_at v 0 :: acc.
Proof.
  unfold pad, digit_at, digit_char.
  change (10 ^ 1) with 10. change (10 ^ 0) with 1. by rewrite Z.div_1_r.
Qed.

Lemma pad4_digits v acc :
  pad 4 v acc
  = digit_at v 3 :: digit_at v 2 :: digit_at v 1 :: digit_at v 0 :: acc.
Proof.
  unfold pad, digit_at, digit_char.
  change (10 ^ 3) with (10 * 10 * 10). change (10 ^ 2) with (10 * 10).
  change (10 ^ 1) with 10. change (10 ^ 0) with 1.
  by rewrite Z.div_1_r, !Z.div_div by lia.
Qed.

Lemma digits2_read v rest :
  0 <= v <= 99 ->
  digits 2 0 (digit_at v 1 :: digit_at v 0 :: rest) = Some (v, rest).
Proof.
  intros Hv. simpl digits. rewrite !digit_digit_at.
  change (10 ^ 1) with 10. change (10 ^ 0) with 1.
  do 2 f_equal. Z.div_mod_to_equations. lia.
Qed.

Lemma digits4_read v rest :
  0 <= v <= 9999 ->
  digits 4 0 (digit_at v 3 :: digit_at v 2 :: digit_at v 1 :: digit_at v 0 :: rest)
  = Some (v, rest).
Proof.
  intros Hv. simpl digits. rewrite !digit_digit_at.
  change (10 ^ 3) with 1000. change (10 ^ 2) with 100.
  change (10 ^ 1) with 10. change (10 ^ 0) with 1.
  do 2 f_equal. Z.div_mod_to_equations. lia.
Qed.

Lemma parse_year_read v rest :
  0 <= v <= 9999 ->
  parse_year (digit_at v 3 :: digit_at v 2 :: digit_at v 1 :: digit_at v 0 :: rest)
  = Some (v, rest).
Proof.
  intros Hv. unfold parse_year.
  destruct (digit_at_not_sign v 3) as [-> ->]. by apply digits4_read.
Qed.

Lemma parse_field_read sep lo hi v rest :
  0 <= v <= 99 -> lo <= v <= hi ->
  parse_field sep lo hi (sep :: digit_at v 1 :: digit_at v 0 :: rest)
  = Some (v, rest).
Proof.
  intros Hv Hr. unfold parse_field. rewrite N.eqb_refl, digits2_read by done.
  destruct (Z.leb_spec lo v); [|lia]. destruct (Z.leb_spec v hi); [|lia]. done.
Qed.

Lemma parse_date_read y m d tail :
  0 <= y <= 9999 -> 1 <= m <= 12 -> 1 <= d <= 31 ->
  parse_date (iso_date y m d ++ tail) = Some (y, m, d, tail).
Proof.
  intros Hy Hm Hd. unfold parse_date, iso_date. simpl app.
  rewrite parse_year_read by done.
  rewrite (parse_field_read 45 1 12 m) by lia.
  rewrite (parse_field_read 45 1 31 d) by lia. done.
Qed.

Lemma days_in_month_bounds y m : 28 <= days_in_month y m <= 31.
Proof.
  unfold days_in_month. destruct (is_leap y);
    repeat match goal with
           | |- context [match ?x with _ => _ end] => destruct x
           end; lia.
Qed.

Lemma DayFromYear_bounds y :
  -1 <= y <= 10000 -> -720000 <= DayFromYear y <= 2940000.
Proof. intros Hy. unfold DayFromYear. Z.div_mod_to_equations. lia. Qed.

Lemma day_number_bounds y m d :
  -1 <= y <= 10000 -> calendar_day y m d ->
  -720000 <= day_number y m d <= 2940000 + 366.
Proof.
  intros Hy Hc. pose proof (day_number_in_year y m d Hc) as Hin.
  rewrite DayFromYear_step in Hin.
  pose proof (DayFromYear_bounds y Hy). pose proof (DaysInYear_bounds y). lia.
Qed.

Lemma TimeClip_noon y m d :
  -1 <= y <= 10000 -> calendar_day y m d ->
  TimeClip (MakeDate (day_number y m d) noon)
  = Some (MakeDate (day_number y m d) noon).
Proof.
  intros Hy Hc. pose proof (day_number_bounds y m d Hy Hc) as Hb.
  unfold TimeClip, MakeDate, msPerDay, noon.
  destruct (Z.gtb_spec (Z.abs (day_number y m d * 86400000 + 43200000))
              8640000000000000); [lia|done].
Qed.

(** [new Date(d + "T12:00:00Z")] on a date in [YYYY-MM-DD] form *)
Lemma new_Date_read y m d :
  valid_date y m d ->
  new_Date (iso_date y m d ++ js "T12:00:00Z")
  = {| DateValue := Some (MakeDate (day_number y m d) noon) |}.
Proof.
  intros [Hy Hc]. pose proof Hc as [Hm Hd].
  pose proof (days_in_month_bounds y m).
  unfold new_Date, parse. rewrite parse_date_read by lia.
  change (parse_time_utc (js "T12:00:00Z")) with (Some noon).
  rewrite MakeDay_day_number by done. f_equal. apply TimeClip_noon; [lia|done].
Qed.

(** Moving the day of the month by [k] moves the time value by [k]
    days. *)
Lemma setUTCDate_shift y m d k :
  calendar_day y m d ->
  let date := {| DateValue := Some (MakeDate (day_number y m d) noon) |} in
  setUTCDate date (num_add (getUTCDate date) (Some k))
  = {| DateValue := TimeClip (MakeDate (day_number y m d + k) noon) |}
  /\ setUTCDate date (num_sub (getUTCDate date) (Some k))
  = {| DateValue := TimeClip (MakeDate (day_number y m d - k) noon) |}.
Proof.
  intros Hc date.
  destruct (fields_of_calendar_day y m d noon Hc ltac:(unfold noon, msPerDay; lia))
    as (HY & HM & HD & HT).
  pose proof Hc as [Hm _].
  unfold setUTCDate, getUTCDate, num_add, num_sub, date. simpl DateValue.
  cbv iota. rewrite HY, HM, HD, HT. rewrite !MakeDay_day_number by done.
  unfold day_number. split; do 3 f_equal; lia.
Qed.

(** [toISOString] and the first ten code units, at noon of a date in
    [YYYY-MM-DD] form *)
Lemma toISOString_write y m d :
  valid_date y m d ->
  toISOString {| DateValue := Some (MakeDate (day_number y m d) noon) |}
  = Returned (iso_date y m d ++ js "T12:00:00.000Z").
Proof.
  intros [Hy Hc].
  destruct (fields_of_calendar_day y m d noon Hc ltac:(unfold noon, msPerDay; lia))
    as (HY & HM & HD & HT).
  unfold toISOString. simpl DateValue. cbv iota. rewrite HY, HM, HD.
  set (t := MakeDate (day_number y m d) noon).
  assert (Hh : HourFromTime t = 12 /\ MinFromTime t = 0 /\ SecFromTime t = 0
               /\ msFromTime t = 0).
  { unfold HourFromTime, MinFromTime, SecFromTime, msFromTime, t, MakeDate,
      noon, msPerDay, msPerHour, msPerMinute, msPerSecond.
    generalize (day_number y m d). intros D.
    repeat split; Z.div_mod_to_equations; lia. }
  destruct Hh as (-> & -> & -> & ->).
  unfold year_string.
  destruct (Z.leb_spec 0 y); [|lia]. destruct (Z.leb_spec y 9999); [|lia].
  simpl andb. cbv iota.
  replace (m - 1 + 1) with m by lia.
  rewrite pad4_digits, !pad2_digits. reflexivity.
Qed.

Lemma slice_date_prefix y m d tail :
  slice (iso_date y m d ++ tail) 0 10 = iso_date y m d.
Proof.
  rewrite (slice_prefix _ 10) by (unfold iso_date; simpl; lia).
  reflexivity.
Qed.


(** *** One day on, one day back *)

Ltac calendar_cases y m Hm Hl :=
  destruct (DaysInYear_cases y) as [(? & Hl & ? & _)|(? & Hl & ? & _)];
  destruct (month_cases m Hm)
    as [->|[->|[->|[->|[->|[->|[->|[->|[->|[->|[->| ->]]]]]]]]]]].

Lemma next_day_calendar y m d :
  calendar_day y m d ->
  exists y' m' d',
    next_day y m d = (y', m', d')
    /\ calendar_day y' m' d'
    /\ day_number y' m' d' = day_number y m d + 1
    /\ y <= y' <= y + 1
    /\ (y' = y + 1 -> m = 12 /\ d = 31)
    /\ prev_day y' m' d' = (y, m, d).
Proof.
  intros [Hm Hd]. unfold next_day, prev_day, calendar_day, day_number.
  pose proof (DayFromYear_step y) as Hstep.
  destruct (Z.ltb_spec d (days_in_month y m)) as [Hlt|Hge].
  - exists y, m, (d + 1). split; [done|].
    destruct (Z.ltb_spec 1 (d + 1)); [|lia].
    replace (d + 1 - 1) with d by lia. repeat split; lia.
  - destruct (Z.ltb_spec m 12) as [Hm12|Hm12].
    + exists y, (m + 1), 1. split; [done|].
      change (1 <? 1) with false. cbv iota.
      destruct (Z.ltb_spec 1 (m + 1)); [|lia].
      replace (m + 1 - 1) with m by lia.
      assert (d = days_in_month y m) as -> by lia.
      pose proof (days_in_month_bounds y (m + 1)).
      calendar_cases y m Hm Hl; try lia;
        unfold days_in_month, leap_flag in *; rewrite ?Hl in *;
        simpl in *; repeat split; lia || congruence.
    + exists (y + 1), 1, 1. split; [done|].
      assert (m = 12) as -> by lia.
      assert (d = 31) as -> by (unfold days_in_month in *; lia).
      change (1 <? 1) with false. cbv iota.
      replace (y + 1 - 1) with y by lia.
      destruct (DaysInYear_cases y) as [(? & _ & Hf & _)|(? & _ & Hf & _)];
        rewrite Hf; simpl; repeat split; lia.
Qed.

Lemma prev_day_calendar y m d :
  calendar_day y m d ->
  exists y' m' d',
    prev_day y m d = (y', m', d')
    /\ calendar_day y' m' d'
    /\ day_number y' m' d' = day_number y m d - 1
    /\ y - 1 <= y' <= y
    /\ (y' = y - 1 -> m = 1 /\ d = 1)
    /\ next_day y' m' d' = (y, m, d).
Proof.
  intros [Hm Hd]. unfold next_day, prev_day, calendar_day, day_number.
  destruct (Z.ltb_spec 1 d) as [Hlt|Hge].
  - exists y, m, (d - 1). split; [done|].
    destruct (Z.ltb_spec (d - 1) (days_in_month y m)); [|lia].
    replace (d - 1 + 1) with d by lia. repeat split; lia.
  - assert (d = 1) as -> by lia.
    destruct (Z.ltb_spec 1 m) as [Hm1|Hm1].
    + exists y, (m - 1), (days_in_month y (m - 1)). split; [done|].
      rewrite Z.ltb_irrefl.
      destruct (Z.ltb_spec (m - 1) 12); [|lia].
      replace (m - 1 + 1) with m by lia.
      pose proof (days_in_month_bounds y (m - 1)).
      calendar_cases y m Hm Hl; try lia;
        unfold days_in_month, leap_flag in *; rewrite ?Hl in *;
        simpl in *; repeat split; lia || congruence.
    + exists (y - 1), 12, 31. split; [done|].
      assert (m = 1) as -> by lia.
      change (31 <? days_in_month (y - 1) 12) with false.
      change (12 <? 12) with false. cbv iota.
      replace (y - 1 + 1) with y by lia.
      pose proof (DayFromYear_step (y - 1)) as Hstep.
      replace (y - 1 + 1) with y in Hstep by lia.
      destruct (DaysInYear_cases (y - 1)) as [(? & _ & Hf & _)|(? & _ & Hf & _)];
        rewrite Hf; simpl; repeat split; lia.
Qed.

Lemma nextDate_step y m d y' m' d' :
  valid_date y m d -> next_day y m d = (y', m', d') -> y' <= 9999 ->
  valid_date y' m' d' /\ nextDate (iso_date y m d) = Returned (iso_date y' m' d').
Proof.
  intros [Hy Hc] Hnext Hy'.
  destruct (next_day_calendar y m d Hc)
    as (y1 & m1 & d1 & Hn & Hc' & Hnum & Hyy & _).
  rewrite Hnext in Hn. simplify_eq.
  assert (Hv : valid_date y1 m1 d1) by (split; [lia|done]).
  split; [done|].
  unfold nextDate. cbv zeta. rewrite new_Date_read by (by split).
  destruct (setUTCDate_shift y m d 1 Hc) as [-> _].
  rewrite <- Hnum, TimeClip_noon by (lia || done).
  by rewrite toISOString_write, slice_date_prefix.
Qed.

Lemma prevDate_step y m d y' m' d' :
  valid_date y m d -> prev_day y m d = (y', m', d') -> 0 <= y' ->
  valid_date y' m' d' /\ prevDate (iso_date y m d) = Returned (iso_date y' m' d').
Proof.
  intros [Hy Hc] Hprev Hy'.
  destruct (prev_day_calendar y m d Hc)
    as (y1 & m1 & d1 & Hn & Hc' & Hnum & Hyy & _).
  rewrite Hprev in Hn. simplify_eq.
  assert (Hv : valid_date y1 m1 d1) by (split; [lia|done]).
  split; [done|].
  unfold prevDate. cbv zeta. rewrite new_Date_read by (by split).
  destruct (setUTCDate_shift y m d 1 Hc) as [_ ->].
  rewrite <- Hnum, TimeClip_noon by (lia || done).
  by rewrite toISOString_write, slice_date_prefix.
Qed.

(** C10, as stated, does not hold at the two ends of the four-digit
    years: the day after 9999-12-31 is written "+010000-01", which is no
    date in [YYYY-MM-DD] form, and the day before 0000-01-01 is written
    "-000001-12", from which [nextDate] does not come back. *)
Lemma date_steps_leave_the_format :
  (valid_date 9999 12 31
   /\ iso_date 9999 12 31 = js "9999-12-31"
   /\ nextDate (js "9999-12-31") = Returned (js "+010000-01")
   /\ forall y m d, valid_date y m d -> iso_date y m d <> js "+010000-01")
  /\ (valid_date 0 1 1
   /\ iso_date 0 1 1 = js "0000-01-01"
   /\ prevDate (js "0000-01-01") = Returned (js "-000001-12")
   /\ (forall y m d, valid_date y m d -> iso_date y m d <> js "-000001-12")
   /\ and_then (prevDate (js "0000-01-01")) nextDate
      = Returned (js "-000001-12")
   /\ js "-000001-12" <> js "0000-01-01").
Proof.
  assert (Hsign : forall y m d c, (c < 48)%N -> forall rest,
            iso_date y m d <> c :: rest).
  { intros y m d c Hc rest Heq. unfold iso_date in Heq.
    injection Heq as Heq _. unfold digit_at in Heq.
    pose proof (Z.mod_pos_bound (y / 10 ^ 3) 10 ltac:(lia)). lia. }
  split.
  - split; [unfold valid_date, calendar_day; simpl; lia|].
    split; [vm_compute; reflexivity|].
    split; [vm_compute; reflexivity|].
    intros y m d _. exact (Hsign y m d 43%N ltac:(lia) (js "010000-01")).
  - split; [unfold valid_date, calendar_day; simpl; lia|].
    split; [vm_compute; reflexivity|].
    split; [vm_compute; reflexivity|].
    split; [intros y m d _;
            exact (Hsign y m d 45%N ltac:(lia) (js "000001-12"))|].
    split; [vm_compute; reflexivity|].
    vm_compute. discriminate.
Qed.

(** C10, amended. For a calendar date [d] of a year from 0000 to 9999 in
    [YYYY-MM-DD] form: unless [d] is 9999-12-31, [nextDate d] is the
    [YYYY-MM-DD] form of the next calendar day; unless [d] is 0000-01-01,
    [prevDate d] is the form of the previous calendar day and
    [nextDate (prevDate d)] is [d]; and [prevDate (nextDate d)] is [d]. *)
Theorem date_steps_round_trip (y m d : Z) :
  valid_date y m d ->
  ((y, m, d) <> (9999, 12, 31) ->
     exists y' m' d',
       next_day y m d = (y', m', d')
       /\ valid_date y' m' d'
       /\ nextDate (iso_date y m d) = Returned (iso_date y' m' d'))
  /\ ((y, m, d) <> (0, 1, 1) ->
     exists y' m' d',
       prev_day y m d = (y', m', d')
       /\ valid_date y' m' d'
       /\ prevDate (iso_date y m d) = Returned (iso_date y' m' d'))
  /\ and_then (nextDate (iso_date y m d)) prevDate = Returned (iso_date y m d)
  /\ ((y, m, d) <> (0, 1, 1) ->
     and_then (prevDate (iso_date y m d)) nextDate = Returned (iso_date y m d)).
Proof.
  intros Hv. pose proof Hv as [Hy Hc].
  destruct (next_day_calendar y m d Hc)
    as (yn & mn & dn & Hn & Hcn & _ & Hyn & Hedge_n & Hback_n).
  destruct (prev_day_calendar y m d Hc)
    as (yp & mp & dp & Hp & Hcp & _ & Hyp & Hedge_p & Hback_p).
  assert (Hnext : (y, m, d) <> (9999, 12, 31) -> yn <= 9999).
  { intros Hne. destruct (decide (yn = y + 1)) as [Heq|]; [|lia].
    destruct (Hedge_n Heq) as [-> ->].
    assert (y <> 9999) by congruence. lia. }
  assert (Hprev : (y, m, d) <> (0, 1, 1) -> 0 <= yp).
  { intros Hne. destruct (decide (yp = y - 1)) as [Heq|]; [|lia].
    destruct (Hedge_p Heq) as [-> ->].
    assert (y <> 0) by congruence. lia. }
  split; [|split; [|split]].
  - intros Hne. exists yn, mn, dn. split; [done|].
    apply (nextDate_step y m d); [done|done|by apply Hnext].
  - intros Hne. exists yp, mp, dp. split; [done|].
    apply (prevDate_step y m d); [done|done|by apply Hprev].
  - destruct (decide ((y, m, d) = (9999, 12, 31))) as [Heq|Hne].
    + injection Heq as -> -> ->. vm_compute. reflexivity.
    + destruct (nextDate_step y m d yn mn dn Hv Hn (Hnext Hne)) as [Hvn ->].
      unfold and_then. apply (prevDate_step yn mn dn); [done|done|lia].
  - intros Hne.
    destruct (prevDate_step y m d yp mp dp Hv Hp (Hprev Hne)) as [Hvp ->].
    unfold and_then. apply (nextDate_step yp mp dp); [done|done|lia].
Qed.

Lemma date_steps_round_trip_witness :
  nextDate (iso_date 2024 2 28) = Returned (iso_date 2024 2 29)
  /\ prevDate (iso_date 2024 3 1) = Returned (iso_date 2024 2 29)
  /\ and_then (nextDate (iso_date 2023 12 31)) prevDate
     = Returned (iso_date 2023 12 31)
  /\ and_then (prevDate (iso_date 2024 1 1)) nextDate
     = Returned (iso_date 2024 1 1).
Proof.
  assert (H1 : valid_date 2024 2 28) by (unfold valid_date, calendar_day; simpl; lia).
  assert (H2 : valid_date 2024 3 1) by (unfold valid_date, calendar_day; simpl; lia).
  assert (H3 : valid_date 2023 12 31) by (unfold valid_date, calendar_day; simpl; lia).
  assert (H4 : valid_date 2024 1 1) by (unfold valid_date, calendar_day; simpl; lia).
  split; [|split; [|split]].
  - destruct (date_steps_round_trip 2024 2 28 H1) as (Hn & _).
    destruct Hn as (y' & m' & d' & Hnext & _ & Hrun).
    { intros Heq. discriminate Heq. }
    vm_compute in Hnext. injection Hnext as <- <- <-. exact Hrun.
  - destruct (date_steps_round_trip 2024 3 1 H2) as (_ & Hp & _).
    destruct Hp as (y' & m' & d' & Hprev & _ & Hrun).
    { intros Heq. discriminate Heq. }
    vm_compute in Hprev. injection Hprev as <- <- <-. exact Hrun.
  - destruct (date_steps_round_trip 2023 12 31 H3) as (_ & _ & Hr & _).
    exact Hr.
  - destruct (date_steps_round_trip 2024 1 1 H4) as (_ & _ & _ & Hr).
    apply Hr. intros Heq. discriminate Heq.
Defined.

Example date_strings :
  iso_date 2024 2 28 = js "2024-02-28" /\ iso_date 2024 2 29 = js "2024-02-29"
  /\ iso_date 2024 3 1 = js "2024-03-01" /\ iso_date 2023 12 31 = js "2023-12-31".
Proof. repeat split; vm_compute; reflexivity. Qed.

End dates.

(** ** How the readers of lib/digest.ts fit together *)

Section readers_together.
Import Js Runtime Sqlite Digest Spec.

Lemma where_text_head_Some {A} (key : A -> string) v rows r :
  head (where_text key v rows) = Some r -> r ∈ rows /\ key r = v.
Proof.
  intros H. apply head_Some_elem_of in H. unfold where_text in H.
  apply list_elem_of_filter in H as [? ?]. done.
Qed.

Lemma where_text_head_None {A} (key : A -> string) v rows :
  head (where_text key v rows) = None <-> forall r, r ∈ rows -> key r <> v.
Proof.
  rewrite head_None. unfold where_text. split.
  - intros H r Hin Hk.
    assert (Hr : r ∈ filter (fun r => key r = v) rows)
      by by apply list_elem_of_filter.
    rewrite H in Hr. by apply elem_of_nil in Hr.
  - intros H. apply elem_of_nil_inv. intros r Hr.
    apply list_elem_of_filter in Hr as [Hk Hin]. by apply (H r).
Qed.

(** X1. The dates that [getAllDigestDates] lists are exactly the dates for
    which [getDigestByDate] returns a page, and the page returned for a
    date carries that date; the same holds for [getAllWeeklyDates] and
    [getWeeklyDigest]. *)
Theorem listed_dates_are_the_dates_with_a_page (w : World) (d : string) :
  (exists dates,
     (getAllDigestDates w).1 = Returned dates
     /\ (d ∈ dates <->
         exists page, (getDigestByDate d w).1 = Returned (Some page)
                      /\ DailyDigest.date (DigestPage.digest page) = d))
  /\ (exists dates,
     (getAllWeeklyDates w).1 = Returned dates
     /\ (d ∈ dates <->
         exists page, (getWeeklyDigest d w).1 = Returned (Some page)
                      /\ WeeklyDigest.week_end (WeeklyPage.digest page) = d)).
Proof.
  split.
  - rewrite getAllDigestDates_run, getDigestByDate_run. eexists. split; [done|].
    simpl. rewrite list_elem_of_In, in_map_iff.
    setoid_rewrite <- list_elem_of_In.
    setoid_rewrite (order_by_text_desc_Permutation DailyDigest.date).
    split.
    + intros (r & Hd & Hin).
      destruct (head (where_text DailyDigest.date d (daily_digest (disk w))))
        as [row|] eqn:Hhd.
      * apply where_text_head_Some in Hhd as [_ Hrow]. by eexists.
      * rewrite where_text_head_None in Hhd. by destruct (Hhd r Hin).
    + intros (page & Hrun & Hd).
      destruct (head (where_text DailyDigest.date d (daily_digest (disk w))))
        as [row|] eqn:Hhd; [|done].
      apply where_text_head_Some in Hhd as [Hin Hrow]. eauto.
  - rewrite getAllWeeklyDates_run, getWeeklyDigest_run. eexists. split; [done|].
    simpl. rewrite list_elem_of_In, in_map_iff.
    setoid_rewrite <- list_elem_of_In.
    setoid_rewrite (order_by_text_desc_Permutation WeeklyDigest.week_end).
    split.
    + intros (r & Hd & Hin).
      destruct (head (where_text WeeklyDigest.week_end d (weekly_digest (disk w))))
        as [row|] eqn:Hhd.
      * apply where_text_head_Some in Hhd as [_ Hrow]. by eexists.
      * rewrite where_text_head_None in Hhd. by destruct (Hhd r Hin).
    + intros (page & Hrun & Hd).
      destruct (head (where_text WeeklyDigest.week_end d (weekly_digest (disk w))))
        as [row|] eqn:Hhd; [|done].
      apply where_text_head_Some in Hhd as [Hin Hrow]. eauto.
Qed.

(** X2. The digest that [getLatestDigest] returns carries the first date
    of [getAllDigestDates], and it is null exactly when that list is
    empty. *)
Theorem latest_digest_is_the_first_listed_date (w : World) :
  exists dates latest,
    (getAllDigestDates w).1 = Returned dates
    /\ (getLatestDigest w).1 = Returned latest
    /\ head dates
       = (fun page => DailyDigest.date (DigestPage.digest page)) <$> latest
    /\ (latest = None <-> dates = []).
Proof.
  rewrite getAllDigestDates_run, getLatestDigest_run. do 2 eexists.
  split; [done|]. split; [done|]. simpl.
  destruct (order_by_text_desc DailyDigest.date (daily_digest (disk w)))
    as [|row rows]; simpl; done.
Qed.

Lemma filter_unique_key {A} (key : A -> string) (rows : list A) (r : A) :
  NoDup (map key rows) -> r ∈ rows ->
  filter (fun x => key x = key r) rows = [r].
Proof.
  induction rows as [|x rows IH]; intros Hnd Hin; [by apply elem_of_nil in Hin|].
  simpl in Hnd. apply NoDup_cons in Hnd as [Hx Hnd].
  rewrite filter_cons. apply elem_of_cons in Hin as [->|Hin].
  - rewrite decide_True by done. f_equal.
    apply elem_of_nil_inv. intros y Hy.
    apply list_elem_of_filter in Hy as [Hk Hy]. apply Hx.
    rewrite <- Hk. apply list_elem_of_In, in_map, list_elem_of_In. done.
  - rewrite decide_False; [by apply IH|].
    intros Hk. apply Hx. rewrite Hk.
    apply list_elem_of_In, in_map, list_elem_of_In. done.
Qed.

(** X3. When no two rows of [daily_digest] share a date (the table's
    UNIQUE key), [getLatestDigest] returns what [getDigestByDate] returns
    for the first date of [getAllDigestDates]. *)
Theorem latest_digest_is_digest_of_first_date (w : World) (d : string)
    (dates : list string) :
  NoDup (map DailyDigest.date (daily_digest (disk w))) ->
  (getAllDigestDates w).1 = Returned (d :: dates) ->
  getLatestDigest w = getDigestByDate d w
  /\ exists page, (getLatestDigest w).1 = Returned (Some page).
Proof.
  intros Hnd. rewrite getAllDigestDates_run, getLatestDigest_run,
    getDigestByDate_run. simpl. intros Hdates.
  destruct (order_by_text_desc DailyDigest.date (daily_digest (disk w)))
    as [|row rows] eqn:Hsort; simplify_eq/=.
  assert (Hin : row ∈ daily_digest (disk w)).
  { rewrite <- (order_by_text_desc_Permutation DailyDigest.date), Hsort. left. }
  unfold where_text. rewrite (filter_unique_key DailyDigest.date _ row Hnd Hin).
  simpl. eauto.
Qed.

Lemma latest_digest_is_digest_of_first_date_witness :
  getLatestDigest Sample.world = getDigestByDate "2024-05-02" Sample.world
  /\ exists page, (getLatestDigest Sample.world).1 = Returned (Some page).
Proof.
  apply (latest_digest_is_digest_of_first_date Sample.world "2024-05-02"
           ["2024-05-01"]).
  - apply (bool_decide_unpack (NoDup _)). vm_compute. exact I.
  - vm_compute. reflexivity.
Defined.

End readers_together.

(** ** The font cache of lib/og.ts *)

Section font_cache.
Import Js Runtime Sqlite Satori Http Og Spec.

(** X4. Once a call of [generateOgImage] has returned, every later call
    returns its picture without a request to the CDN: it adds one call of
    satori and one of sharp to the trace and leaves the font cache as it
    is. *)
Theorem fonts_are_fetched_once
    (P : Platform) (h d l h' d' l' : jsstring) (w : World) (png : Buffer) :
  (generateOgImage P h d l w).1 = Returned png ->
  let w1 := (generateOgImage P h d l w).2 in
  exists tree options,
    (generateOgImage P h' d' l' w1).1
      = Returned (sharp_png P (satori P tree options))
    /\ trace (generateOgImage P h' d' l' w1).2
       = trace w1 ++ [SatoriCall tree options; SharpCall (satori P tree options)]
    /\ FONT_CACHE (generateOgImage P h' d' l' w1).2 = FONT_CACHE w1.
Proof.
  intros Hrun w1.
  assert (Hcached : is_Some (regular (FONT_CACHE w1))).
  { subst w1. revert Hrun. rewrite generateOgImage_run.
    destruct (regular (FONT_CACHE w)) as [r|] eqn:Hr.
    - intros _. simpl. rewrite Hr. by eexists.
    - destruct (cdn P regular_url), (cdn P bold_url); simpl; done. }
  destruct Hcached as [r Hr].
  rewrite generateOgImage_run, Hr. do 2 eexists. simpl.
  split; [done|]. split; [|done]. by rewrite <- app_assoc.
Qed.

Lemma fonts_are_fetched_once_witness :
  exists tree options,
    (generateOgImage Sample.platform (js "b") (js "c") (js "d")
       (generateOgImage Sample.platform (js "a") (js "a") (js "a") Sample.world).2).1
      = Returned (sharp_png Sample.platform (satori Sample.platform tree options))
    /\ trace (generateOgImage Sample.platform (js "b") (js "c") (js "d")
       (generateOgImage Sample.platform (js "a") (js "a") (js "a") Sample.world).2).2
       = trace (generateOgImage Sample.platform (js "a") (js "a") (js "a") Sample.world).2
         ++ [SatoriCall tree options;
             SharpCall (satori Sample.platform tree options)]
    /\ FONT_CACHE (generateOgImage Sample.platform (js "b") (js "c") (js "d")
       (generateOgImage Sample.platform (js "a") (js "a") (js "a") Sample.world).2).2
       = FONT_CACHE (generateOgImage Sample.platform (js "a") (js "a") (js "a") Sample.world).2.
Proof.
  apply (fonts_are_fetched_once Sample.platform (js "a") (js "a") (js "a")
           (js "b") (js "c") (js "d") Sample.world
           (js "PNG<svg/>")).
  vm_compute. reflexivity.
Defined.

(** X5. With no font cached and a request for either font that is
    rejected (the [fetch] promise rejects), [generateOgImage] throws after
    sending both requests: satori and sharp are not called, the cache stays
    empty, so the next call asks the CDN again. *)
Theorem failed_font_fetch_draws_nothing
    (P : Platform) (h d l : jsstring) (w : World) :
  regular (FONT_CACHE w) = None ->
  cdn P regular_url = None \/ cdn P bold_url = None ->
  (generateOgImage P h d l w).1 = Thrown (TypeError "fetch failed")
  /\ trace (generateOgImage P h d l w).2
     = trace w ++ [Fetch regular_url; Fetch bold_url]
  /\ FONT_CACHE (generateOgImage P h d l w).2 = FONT_CACHE w.
Proof.
  intros Hr Hfail. rewrite generateOgImage_run, Hr.
  destruct (cdn P regular_url) as [r|], (cdn P bold_url) as [b|];
    simpl; rewrite <- ?app_assoc; try done.
  by destruct Hfail.
Qed.

Lemma failed_font_fetch_draws_nothing_witness :
  (generateOgImage Sample.offline_platform (js "a") (js "b") (js "c")
     Sample.world).1
    = Thrown (TypeError "fetch failed")
  /\ trace (generateOgImage Sample.offline_platform (js "a") (js "b") (js "c")
              Sample.world).2
     = [] ++ [Fetch regular_url; Fetch bold_url]
  /\ FONT_CACHE (generateOgImage Sample.offline_platform (js "a") (js "b")
                   (js "c") Sample.world).2
     = Sample.no_fonts.
Proof.
  apply (failed_font_fetch_draws_nothing Sample.offline_platform
           (js "a") (js "b") (js "c") Sample.world).
  - reflexivity.
  - left. reflexivity.
Defined.

(** X6. [generateOgImage] keeps the font cache whole: if it holds both
    fonts or none before the call, it holds both or none after it,
    whatever the outcome; and the call leaves the tables and the open
    connections alone. *)
Theorem generateOgImage_keeps_the_cache_whole
    (P : Platform) (h d l : jsstring) (w : World) :
  cache_consistent (FONT_CACHE w) ->
  cache_consistent (FONT_CACHE (generateOgImage P h d l w).2)
  /\ disk (generateOgImage P h d l w).2 = disk w
  /\ open_connections (generateOgImage P h d l w).2 = open_connections w.
Proof.
  intros Hc. rewrite generateOgImage_run.
  destruct (regular (FONT_CACHE w)) as [r|] eqn:Hr; [done|].
  destruct (cdn P regular_url) as [fr|], (cdn P bold_url) as [fb|];
    simpl; try done.
  split; [|done]. right. split; by eexists.
Qed.

Lemma generateOgImage_keeps_the_cache_whole_witness :
  cache_consistent
    (FONT_CACHE (generateOgImage Sample.platform (js "a") (js "b") (js "c")
                   Sample.world).2)
  /\ disk (generateOgImage Sample.platform (js "a") (js "b") (js "c")
             Sample.world).2 = Sample.db
  /\ open_connections (generateOgImage Sample.platform (js "a") (js "b") (js "c")
             Sample.world).2 = 0%nat.
Proof.
  apply (generateOgImage_keeps_the_cache_whole Sample.platform
           (js "a") (js "b") (js "c") Sample.world).
  left. split; reflexivity.
Defined.

End font_cache.

(** ** The OG routes, when the digest exists *)

Section og_found.
Import Js Runtime Sqlite Satori Http Og Spec.

Lemma slice_take (s : jsstring) (n : nat) : slice s 0 (Z.of_nat n) = take n s.
Proof.
  destruct (decide (n <= length s)%nat) as [Hle|Hgt].
  - by apply slice_prefix.
  - unfold slice, clamp_index, jslength.
    change (0 <? 0) with false. cbv iota.
    destruct (Z.ltb_spec (Z.of_nat n) 0) as [Hneg|_]; [lia|].
    rewrite (Z.min_l 0) by lia. rewrite Z.min_r by lia.
    rewrite Z.sub_0_r, Nat2Z.id. change (drop (Z.to_nat 0) s) with s.
    rewrite (take_ge s n) by lia. apply take_ge. lia.
Qed.

(** [title || fallback] on a column that may hold NULL. *)
Lemma or_else_null_fmap (f : string -> jsstring) (t : option string) fallback :
  or_else_null (f <$> t) fallback
  = match t with
    | Some x => match f x with [] => fallback | title => title end
    | None => fallback
    end.
Proof.
  destruct t as [x|]; [|reflexivity]. simpl. by destruct (f x).
Qed.

(** Cutting to [limit] does not see an earlier cut at a greater length. *)
Lemma cut_to_take (limit n : nat) (s : jsstring) :
  (limit < n)%nat -> cut_to limit (take n s) = cut_to limit s.
Proof.
  intros Hn. unfold cut_to.
  destruct (decide (length s <= limit)%nat) as [Hle|Hgt].
  - rewrite take_ge by lia. by rewrite decide_True.
  - rewrite decide_False by (rewrite length_take; lia).
    rewrite take_take. f_equal. f_equal. lia.
Qed.

Lemma cut_to_Forall (Q : N -> Prop) (limit : nat) (s : jsstring) :
  Q 46%N -> Forall Q s -> Forall Q (cut_to limit s).
Proof.
  intros Hdot Hs. unfold cut_to. case_decide; [done|].
  apply Forall_app. split; [by apply Forall_take|].
  repeat constructor; done.
Qed.

Lemma daily_strip_marks_clean (s : jsstring) :
  Forall (fun c => c ∉ daily_marks) (OgDaily.strip_marks s).
Proof.
  apply Forall_forall. intros c Hc.
  by apply list_elem_of_filter in Hc as [? _].
Qed.

Lemma weekly_strip_marks_clean (s : jsstring) :
  Forall (fun c => c ∉ weekly_marks) (OgWeekly.strip_marks s).
Proof.
  apply Forall_forall. intros c Hc.
  by apply list_elem_of_filter in Hc as [? _].
Qed.

(** What a successful call of [generateOgImage] leaves behind. *)
Lemma generateOgImage_available P headline description dateLabel w :
  fonts_available P w ->
  exists tree options,
    (generateOgImage P headline description dateLabel w).1
      = Returned (sharp_png P (satori P tree options))
    /\ SatoriCall tree options
         ∈ trace (generateOgImage P headline description dateLabel w).2
    /\ description_text tree = Some (cut_to 140 description)
    /\ headline_text tree = Some (cut_to 90 headline)
    /\ disk (generateOgImage P headline description dateLabel w).2 = disk w.
Proof.
  intros Hfonts.
  destruct (og_tree_texts headline description dateLabel) as [Hh Hd].
  rewrite generateOgImage_run.
  destruct (regular (FONT_CACHE w)) as [r|] eqn:Hr.
  - eexists (og_tree headline (cut_to 140 description) dateLabel), _.
    split; [reflexivity|].
    split; [|split; [exact Hd|split; [exact Hh|reflexivity]]].
    simpl. rewrite !elem_of_app, !elem_of_cons. left. right. left. reflexivity.
  - destruct Hfonts as [[? ?]|[[fr Hfr] [fb Hfb]]]; [congruence|].
    rewrite Hfr, Hfb.
    eexists (og_tree headline (cut_to 140 description) dateLabel), _.
    split; [reflexivity|].
    split; [|split; [exact Hd|split; [exact Hh|reflexivity]]].
    simpl. rewrite !elem_of_app, !elem_of_cons. left. right. left. reflexivity.
Qed.

(** What a call of a route evaluates to. *)
Lemma OgDaily_GET_run P date w :
  OgDaily.GET P date w =
    match head (where_text DailyDigest.date (encode_text P date)
                  (daily_digest (disk w))) with
    | None => (Returned not_found, w)
    | Some row =>
        match generateOgImage P
                (stripMd P
                   (or_else_null (decode_text P <$> DailyDigest.global_title row)
                      (js "Government Press Digest")))
                (slice (OgDaily.strip_marks
                          (decode_text P (DailyDigest.global_summary row))) 0 160)
                (formatDate P (decode_text P (DailyDigest.date row))) w with
        | (Returned png, w1) => (Returned (png_response png), w1)
        | (Thrown e, w1) => (Thrown e, w1)
        end
    end.
Proof.
  unfold OgDaily.GET, mbind, M_bind, bind. rewrite getDigestByDate_run.
  destruct (head _) as [row|]; [|reflexivity]. simpl.
  by destruct (generateOgImage _ _ _ _ _) as [[png|e] w1].
Qed.

Lemma OgWeekly_GET_run P date w :
  OgWeekly.GET P date w =
    match head (where_text WeeklyDigest.week_end (encode_text P date)
                  (weekly_digest (disk w))) with
    | None => (Returned not_found, w)
    | Some row =>
        match generateOgImage P
                (stripMd P
                   (or_else_null (decode_text P <$> WeeklyDigest.global_title row)
                      (js "Weekly Government Digest")))
                (slice (OgWeekly.strip_marks
                          (decode_text P (WeeklyDigest.global_summary row))) 0 160)
                (js "Week of "
                   ++ formatDateShort P (decode_text P (WeeklyDigest.week_start row))
                   ++ OgWeekly.label_separator
                   ++ formatDate P (decode_text P (WeeklyDigest.week_end row))) w with
        | (Returned png, w1) => (Returned (png_response png), w1)
        | (Thrown e, w1) => (Thrown e, w1)
        end
    end.
Proof.
  unfold OgWeekly.GET, mbind, M_bind, bind. rewrite getWeeklyDigest_run.
  destruct (head _) as [row|]; [|reflexivity]. simpl.
  by destruct (generateOgImage _ _ _ _ _) as [[png|e] w1].
Qed.

Lemma dot_is_no_mark : (46%N ∉ daily_marks) /\ (46%N ∉ weekly_marks).
Proof. split; apply (bool_decide_unpack _); vm_compute; exact I. Qed.

(** X7. When [getDigestByDate] finds the digest and the fonts can be had,
    the daily route answers 200 with a PNG body and the header
    [Content-Type: image/png]. The picture is drawn from a tree whose
    description is the digest's summary without the characters
    [* _ # > [ ]], cut to 140 code units (the cut at 160 in the route never
    shows), and whose headline is the stripped title, or the stripped
    fallback title when the title is NULL or empty, cut to 90. *)
Theorem og_daily_route_draws_the_digest
    (P : Platform) (w : World) (date : jsstring) (page : DigestPage.t) :
  (Digest.getDigestByDate (encode_text P date) w).1 = Returned (Some page) ->
  fonts_available P w ->
  let digest := DigestPage.digest page in
  let shown_description :=
    cut_to 140 (OgDaily.strip_marks
                  (decode_text P (DailyDigest.global_summary digest))) in
  let shown_headline :=
    cut_to 90 (stripMd P
                 (match DailyDigest.global_title digest with
                  | Some t => match decode_text P t with
                              | [] => js "Government Press Digest"
                              | title => title
                              end
                  | None => js "Government Press Digest"
                  end)) in
  exists tree options,
    (OgDaily.GET P date w).1
      = Returned (png_response (sharp_png P (satori P tree options)))
    /\ SatoriCall tree options ∈ trace (OgDaily.GET P date w).2
    /\ description_text tree = Some shown_description
    /\ headline_text tree = Some shown_headline
    /\ Forall (fun c => c ∉ daily_marks) shown_description
    /\ jslength shown_description <= 140
    /\ disk (OgDaily.GET P date w).2 = disk w.
Proof.
  intros Hpage Hfonts digest shown_description shown_headline.
  rewrite getDigestByDate_run in Hpage. simpl in Hpage.
  rewrite OgDaily_GET_run.
  destruct (head _) as [row|]; simplify_eq/=.
  match goal with
  | |- context [generateOgImage P ?h ?d ?l w] =>
      destruct (generateOgImage_available P h d l w Hfonts)
        as (tree & options & Hrun & Hcall & Hd & Hh & Hdisk);
      destruct (generateOgImage P h d l w) as [[png|e] w1] eqn:Hgen
  end; simplify_eq/=.
  exists tree, options.
  split; [done|]. split; [done|].
  split.
  { rewrite Hd. f_equal.
    change 160 with (Z.of_nat 160). rewrite slice_take.
    apply cut_to_take. lia. }
  split.
  { rewrite Hh. subst shown_headline digest.
    by rewrite or_else_null_fmap. }
  split.
  { apply cut_to_Forall; [apply dot_is_no_mark|apply daily_strip_marks_clean]. }
  split; [|done].
  pose proof (cut_to_length
                (OgDaily.strip_marks
                   (decode_text P (DailyDigest.global_summary row))) 140).
  unfold jslength, shown_description, digest. simpl. lia.
Qed.

Lemma og_daily_route_draws_the_digest_witness :
  exists tree options,
    (OgDaily.GET Sample.platform (js "2024-05-01") Sample.world).1
      = Returned (png_response
                    (sharp_png Sample.platform
                       (satori Sample.platform tree options)))
    /\ SatoriCall tree options
         ∈ trace (OgDaily.GET Sample.platform (js "2024-05-01") Sample.world).2
    /\ description_text tree = Some (js "Two governments spoke.")
    /\ headline_text tree = Some (js "Trade and health").
Proof.
  destruct (og_daily_route_draws_the_digest Sample.platform Sample.world
              (js "2024-05-01") (page_in Sample.db Sample.day1))
    as (tree & options & H1 & H2 & H3 & H4 & _).
  - vm_compute. reflexivity.
  - right. split; by eexists.
  - exists tree, options. split; [exact H1|]. split; [exact H2|].
    split; [rewrite H3|rewrite H4]; vm_compute; reflexivity.
Defined.

(** X8. The weekly route does the same for the digest that
    [getWeeklyDigest] finds: status 200, a PNG body, the summary without
    [* _ # > [ ] |] cut to 140 code units as the description, and the
    stripped title or fallback title cut to 90 as the headline. *)
Theorem og_weekly_route_draws_the_digest
    (P : Platform) (w : World) (date : jsstring) (page : WeeklyPage.t) :
  (Digest.getWeeklyDigest (encode_text P date) w).1 = Returned (Some page) ->
  fonts_available P w ->
  let digest := WeeklyPage.digest page in
  let shown_description :=
    cut_to 140 (OgWeekly.strip_marks
                  (decode_text P (WeeklyDigest.global_summary digest))) in
  let shown_headline :=
    cut_to 90 (stripMd P
                 (match WeeklyDigest.global_title digest with
                  | Some t => match decode_text P t with
                              | [] => js "Weekly Government Digest"
                              | title => title
                              end
                  | None => js "Weekly Government Digest"
                  end)) in
  exists tree options,
    (OgWeekly.GET P date w).1
      = Returned (png_response (sharp_png P (satori P tree options)))
    /\ SatoriCall tree options ∈ trace (OgWeekly.GET P date w).2
    /\ description_text tree = Some shown_description
    /\ headline_text tree = Some shown_headline
    /\ Forall (fun c => c ∉ weekly_marks) shown_description
    /\ jslength shown_description <= 140
    /\ disk (OgWeekly.GET P date w).2 = disk w.
Proof.
  intros Hpage Hfonts digest shown_description shown_headline.
  rewrite getWeeklyDigest_run in Hpage. simpl in Hpage.
  rewrite OgWeekly_GET_run.
  destruct (head _) as [row|]; simplify_eq/=.
  match goal with
  | |- context [generateOgImage P ?h ?d ?l w] =>
      destruct (generateOgImage_available P h d l w Hfonts)
        as (tree & options & Hrun & Hcall & Hd & Hh & Hdisk);
      destruct (generateOgImage P h d l w) as [[png|e] w1] eqn:Hgen
  end; simplify_eq/=.
  exists tree, options.
  split; [done|]. split; [done|].
  split.
  { rewrite Hd. f_equal.
    change 160 with (Z.of_nat 160). rewrite slice_take.
    apply cut_to_take. lia. }
  split.
  { rewrite Hh. subst shown_headline digest.
    by rewrite or_else_null_fmap. }
  split.
  { apply cut_to_Forall; [apply dot_is_no_mark|apply weekly_strip_marks_clean]. }
  split; [|done].
  pose proof (cut_to_length
                (OgWeekly.strip_marks
                   (decode_text P (WeeklyDigest.global_summary row))) 140).
  unfold jslength, shown_description, digest. simpl. lia.
Qed.

Lemma og_weekly_route_draws_the_digest_witness :
  exists tree options,
    (OgWeekly.GET Sample.platform (js "2024-05-05") Sample.world).1
      = Returned (png_response
                    (sharp_png Sample.platform
                       (satori Sample.platform tree options)))
    /\ SatoriCall tree options
         ∈ trace (OgWeekly.GET Sample.platform (js "2024-05-05") Sample.world).2
    /\ description_text tree = Some (js "A week of statements.")
    /\ headline_text tree = Some (js "The week").
Proof.
  destruct (og_weekly_route_draws_the_digest Sample.platform Sample.world
              (js "2024-05-05") (weekly_page_in Sample.db Sample.week1))
    as (tree & options & H1 & H2 & H3 & H4 & _).
  - vm_compute. reflexivity.
  - right. split; by eexists.
  - exists tree, options. split; [exact H1|]. split; [exact H2|].
    split; [rewrite H3|rewrite H4]; vm_compute; reflexivity.
Defined.

(** X9. Every path that a route's [getStaticPaths] lists is answered by
    its [GET] with status 200 and a PNG, never with 404, provided the fonts
    can be had and the stored dates survive the way to JavaScript and
    back. There is one path per stored digest. *)
Theorem og_static_paths_are_served (P : Platform) (w : World) :
  fonts_available P w ->
  (forall r, r ∈ daily_digest (disk w) ->
     encode_text P (decode_text P (DailyDigest.date r)) = DailyDigest.date r) ->
  (forall r, r ∈ weekly_digest (disk w) ->
     encode_text P (decode_text P (WeeklyDigest.week_end r))
     = WeeklyDigest.week_end r) ->
  (exists paths,
     (OgDaily.getStaticPaths P w).1 = Returned paths
     /\ length paths = length (daily_digest (disk w))
     /\ forall p, p ∈ paths ->
          exists png, (OgDaily.GET P p w).1 = Returned (png_response png))
  /\ (exists paths,
     (OgWeekly.getStaticPaths P w).1 = Returned paths
     /\ length paths = length (weekly_digest (disk w))
     /\ forall p, p ∈ paths ->
          exists png, (OgWeekly.GET P p w).1 = Returned (png_response png)).
Proof.
  intros Hfonts Hdaily Hweekly. split.
  - unfold OgDaily.getStaticPaths, mbind, M_bind, bind.
    rewrite getAllDigestDates_run. eexists. split; [reflexivity|]. split.
    + rewrite !length_map.
      apply Permutation_length, order_by_text_desc_Permutation.
    + intros p Hp.
      apply list_elem_of_In, in_map_iff in Hp as (d & <- & Hd).
      apply in_map_iff in Hd as (r & <- & Hr).
      apply list_elem_of_In in Hr.
      rewrite order_by_text_desc_Permutation in Hr.
      rewrite OgDaily_GET_run, (Hdaily r Hr).
      destruct (head _) as [row|] eqn:Hhd.
      * match goal with
        | |- context [generateOgImage P ?h ?d ?l w] =>
            destruct (generateOgImage_available P h d l w Hfonts)
              as (tree & options & Hrun & _);
            destruct (generateOgImage P h d l w) as [[png|e] w1]
        end; simplify_eq/=. by eexists.
      * rewrite where_text_head_None in Hhd. by destruct (Hhd r Hr).
  - unfold OgWeekly.getStaticPaths, mbind, M_bind, bind.
    rewrite getAllWeeklyDates_run. eexists. split; [reflexivity|]. split.
    + rewrite !length_map.
      apply Permutation_length, order_by_text_desc_Permutation.
    + intros p Hp.
      apply list_elem_of_In, in_map_iff in Hp as (d & <- & Hd).
      apply in_map_iff in Hd as (r & <- & Hr).
      apply list_elem_of_In in Hr.
      rewrite order_by_text_desc_Permutation in Hr.
      rewrite OgWeekly_GET_run, (Hweekly r Hr).
      destruct (head _) as [row|] eqn:Hhd.
      * match goal with
        | |- context [generateOgImage P ?h ?d ?l w] =>
            destruct (generateOgImage_available P h d l w Hfonts)
              as (tree & options & Hrun & _);
            destruct (generateOgImage P h d l w) as [[png|e] w1]
        end; simplify_eq/=. by eexists.
      * rewrite where_text_head_None in Hhd. by destruct (Hhd r Hr).
Qed.

Lemma og_static_paths_are_served_witness :
  (exists paths,
     (OgDaily.getStaticPaths Sample.platform Sample.world).1 = Returned paths
     /\ length paths = 2%nat
     /\ forall p, p ∈ paths ->
          exists png, (OgDaily.GET Sample.platform p Sample.world).1
                      = Returned (png_response png))
  /\ (exists paths,
     (OgWeekly.getStaticPaths Sample.platform Sample.world).1 = Returned paths
     /\ length paths = 1%nat
     /\ forall p, p ∈ paths ->
          exists png, (OgWeekly.GET Sample.platform p Sample.world).1
                      = Returned (png_response png)).
Proof.
  apply (og_static_paths_are_served Sample.platform Sample.world).
  - right. split; by eexists.
  - intros r Hr. simpl in Hr.
    repeat (apply elem_of_cons in Hr as [->|Hr]; [vm_compute; reflexivity|]).
    by apply elem_of_nil in Hr.
  - intros r Hr. simpl in Hr.
    repeat (apply elem_of_cons in Hr as [->|Hr]; [vm_compute; reflexivity|]).
    by apply elem_of_nil in Hr.
Defined.

End og_found.

(** ** lib/md.ts: [stripMd] on examples *)

Section md_examples.
Import Js Md.
Example stripMd_emphasis :
  stripMd (js "**Bold** and *it* and `code`") = js "Bold and it and code".
Proof. vm_compute. reflexivity. Qed.
Example stripMd_heading :
  stripMd (js "## Title" ++ [10%N]) = js "Title".
Proof. vm_compute. reflexivity. Qed.
Example stripMd_link :
  stripMd (js "see [the text](http://x.example/a_b) now")
  = js "see the text now".
Proof. vm_compute. reflexivity. Qed.
Example stripMd_snake : stripMd (js "snake_case_name") = js "snakecasename".
Proof. vm_compute. reflexivity. Qed.
Example stripMd_stars : stripMd (js "***x***") = js "x".
Proof. vm_compute. reflexivity. Qed.
Example stripMd_stars4 : stripMd (js "****x****") = js "*x*".
Proof. vm_compute. reflexivity. Qed.
Example stripMd_spaced : stripMd (js "a * b * c") = js "a  b  c".
Proof. vm_compute. reflexivity. Qed.
Example stripMd_two_headings :
  stripMd (js "#" ++ [10%N] ++ js "#x" ++ [10%N] ++ js "y # z")
  = js "x" ++ [10%N] ++ js "y # z".
Proof. vm_compute. reflexivity. Qed.
Example stripMd_unclosed : stripMd (js "**open") = js "**open".
Proof. vm_compute. reflexivity. Qed.
Example stripMd_empty_link : stripMd (js "[]()[a]()") = js "[]()[a]()".
Proof. vm_compute. reflexivity. Qed.
End md_examples.

(** ** [stripMd] *)

Section md.
Import Js Md Spec.

Lemma span_not_spec c s :
  s = (span_not c s).1 ++ (span_not c s).2
  /\ Forall (fun x => x <> c) (span_not c s).1.
Proof.
  induction s as [|x s [IH1 IH2]]; simpl; [by split|].
  destruct (N.eqb_spec x c) as [->|Hne]; simpl; [by split|].
  destruct (span_not c s) as [run tail]; simpl in *.
  split; [by f_equal|by constructor].
Qed.

Lemma strip_prefix_Some p : forall s t, strip_prefix p s = Some t -> s = p ++ t.
Proof.
  induction p as [|a p IH]; intros [|b s] t; simpl; try naive_solver.
  destruct (N.eqb_spec a b) as [->|]; [|done].
  intros H. f_equal. by apply IH.
Qed.

Lemma match_delimited_fits delim c : fits (match_delimited delim c).
Proof.
  intros s group len. unfold match_delimited.
  destruct (strip_prefix delim s) as [s1|] eqn:H1; [|done].
  apply strip_prefix_Some in H1 as ->.
  destruct (span_not_spec c s1) as [Hs1 _].
  destruct (span_not c s1) as [g s2]; simpl in Hs1.
  destruct g as [|x g]; [done|].
  destruct (strip_prefix delim s2) as [s3|] eqn:H2; [|done].
  apply strip_prefix_Some in H2 as ->.
  intros [= <- <-]. subst s1. rewrite !length_app. simpl.
  rewrite ?length_app. simpl. lia.
Qed.

Lemma match_delimited_starts d delim c :
  starts_with d (match_delimited (d :: delim) c).
Proof.
  intros s group len. unfold match_delimited.
  destruct (strip_prefix (d :: delim) s) as [s1|] eqn:H1; [|done].
  apply strip_prefix_Some in H1 as ->. done.
Qed.

Lemma match_link_fits : fits match_link.
Proof.
  intros s group len. unfold match_link.
  destruct (strip_prefix [91%N] s) as [s1|] eqn:H1; [|done].
  apply strip_prefix_Some in H1 as ->.
  destruct (span_not_spec 93 s1) as [Hs1 _].
  destruct (span_not 93 s1) as [text s2]; simpl in Hs1.
  destruct text as [|x text]; [done|].
  destruct (strip_prefix [93; 40]%N s2) as [s3|] eqn:H2; [|done].
  apply strip_prefix_Some in H2 as ->.
  destruct (span_not_spec 41 s3) as [Hs3 _].
  destruct (span_not 41 s3) as [url s4]; simpl in Hs3.
  destruct url as [|y url]; [done|].
  destruct (strip_prefix [41%N] s4) as [s5|] eqn:H3; [|done].
  apply strip_prefix_Some in H3 as ->.
  intros [= <- <-]. subst s1 s3. simpl. rewrite !length_app. simpl.
  rewrite !length_app. simpl. lia.
Qed.

Lemma match_link_starts : starts_with 91 match_link.
Proof.
  intros s group len. unfold match_link.
  destruct (strip_prefix [91%N] s) as [s1|] eqn:H1; [|done].
  apply strip_prefix_Some in H1 as ->. done.
Qed.

Lemma replace_all_length matcher :
  fits matcher ->
  forall s skip, (skip <= length s)%nat ->
    (length (replace_all matcher skip s) + skip <= length s)%nat.
Proof.
  intros Hfits. induction s as [|c s IH]; intros skip Hskip; simpl in *; [lia|].
  destruct skip as [|k].
  - destruct (matcher (c :: s)) as [[group len]|] eqn:Hm.
    + apply Hfits in Hm. simpl in Hm. rewrite length_app.
      pose proof (IH (len - 1)%nat ltac:(lia)). lia.
    + simpl. pose proof (IH 0%nat ltac:(lia)). lia.
  - pose proof (IH k ltac:(lia)). lia.
Qed.

Lemma replace_all_plain matcher c :
  starts_with c matcher ->
  forall s, c ∉ s -> replace_all matcher 0 s = s.
Proof.
  intros Hstarts. induction s as [|x s IH]; intros Hc; [done|]. simpl.
  apply not_elem_of_cons in Hc as [Hx Hs].
  destruct (matcher (x :: s)) as [[group len]|] eqn:Hm.
  - apply Hstarts in Hm. simpl in Hm. congruence.
  - f_equal. by apply IH.
Qed.

Lemma strip_headings_length st s :
  (length (strip_headings st s) <= length s)%nat.
Proof.
  revert st. induction s as [|c s IH]; intros st; simpl; [done|].
  pose proof (IH (Copying (is_line_terminator c))).
  pose proof (IH InHashes).
  pose proof (IH (InSpaces (is_line_terminator c))).
  destruct st as [b| |b]; repeat case_match; simpl; lia.
Qed.

Lemma strip_headings_plain s :
  forall line_start, 35%N ∉ s -> strip_headings (Copying line_start) s = s.
Proof.
  induction s as [|c s IH]; intros b Hc; [done|]. simpl.
  apply not_elem_of_cons in Hc as [Hx Hs].
  destruct (N.eqb_spec c 35) as [->|_]; [done|].
  rewrite andb_false_r. f_equal. by apply IH.
Qed.

Lemma drop_spaces_suffix s : exists spaces, s = spaces ++ drop_spaces s.
Proof.
  induction s as [|c s [sp IH]]; simpl; [by exists []|].
  destruct (is_space c); [|by exists []].
  exists (c :: sp). simpl. by f_equal.
Qed.

Lemma drop_spaces_head s c :
  head (drop_spaces s) = Some c -> is_space c = false.
Proof.
  induction s as [|x s IH]; simpl; [done|].
  destruct (is_space x) eqn:Hx; [done|]. simpl. congruence.
Qed.

Lemma drop_spaces_id s :
  (forall c, head s = Some c -> is_space c = false) -> drop_spaces s = s.
Proof.
  destruct s as [|x s]; simpl; [done|]. intros H. by rewrite (H x).
Qed.

Lemma trim_length s : (length (trim s) <= length s)%nat.
Proof.
  unfold trim. rewrite length_reverse.
  destruct (drop_spaces_suffix s) as [sp1 H1].
  destruct (drop_spaces_suffix (reverse (drop_spaces s))) as [sp2 H2].
  apply (f_equal length) in H1, H2.
  rewrite length_app in H1, H2. rewrite length_reverse in H2. lia.
Qed.

Lemma trim_ends s :
  (forall c, head (trim s) = Some c -> is_space c = false)
  /\ (forall c, last (trim s) = Some c -> is_space c = false).
Proof.
  unfold trim. split; intros c Hc.
  - rewrite head_reverse in Hc.
    destruct (drop_spaces_suffix (reverse (drop_spaces s))) as [sp Hsp].
    destruct (drop_spaces (reverse (drop_spaces s))) as [|y l] eqn:Hl; [done|].
    assert (Hlast : last (reverse (drop_spaces s)) = Some c).
    { rewrite Hsp. rewrite last_app. by rewrite Hc. }
    rewrite last_reverse in Hlast. by apply drop_spaces_head in Hlast.
  - rewrite last_reverse in Hc. by apply drop_spaces_head in Hc.
Qed.

Lemma trim_id s :
  (forall c, head s = Some c -> is_space c = false) ->
  (forall c, last s = Some c -> is_space c = false) ->
  trim s = s.
Proof.
  intros Hh Hl. unfold trim. rewrite (drop_spaces_id s Hh).
  rewrite drop_spaces_id; [apply reverse_involutive|].
  intros c. rewrite head_reverse. apply Hl.
Qed.

(** X10. [stripMd] never makes a text longer: each replacement puts a
    part of the match in its place, and [trim] only removes. *)
Theorem stripMd_never_longer (text : jsstring) :
  (length (stripMd text) <= length text)%nat.
Proof.
  unfold stripMd. cbv zeta.
  assert (Hreplace : forall matcher s, fits matcher ->
            (length (replace_all matcher 0 s) <= length s)%nat).
  { intros matcher s Hfits.
    pose proof (replace_all_length matcher Hfits s 0%nat ltac:(lia)). lia. }
  etrans; [apply trim_length|].
  etrans; [apply Hreplace, match_link_fits|].
  etrans; [apply strip_headings_length|].
  etrans; [apply Hreplace, match_delimited_fits|].
  etrans; [apply Hreplace, match_delimited_fits|].
  etrans; [apply Hreplace, match_delimited_fits|].
  apply Hreplace, match_delimited_fits.
Qed.

(** X11. A text without any of the characters [* _ ` # [] passes the six
    replacements unchanged: [stripMd] only trims it, and returns it as it
    is when it neither starts nor ends with white space. *)
Theorem stripMd_plain_text (text : jsstring) :
  Forall (fun c => c ∉ [42; 95; 96; 35; 91]%N) text ->
  stripMd text = trim text
  /\ ((forall c, head text = Some c -> is_space c = false) ->
      (forall c, last text = Some c -> is_space c = false) ->
      stripMd text = text).
Proof.
  intros Hplain.
  assert (Hno : forall c, c ∈ [42; 95; 96; 35; 91]%N -> c ∉ text).
  { intros c Hc Hin. rewrite Forall_forall in Hplain.
    by apply (Hplain c Hin). }
  assert (Hstrip : stripMd text = trim text).
  { unfold stripMd. cbv zeta.
    change (js "**") with [42; 42]%N. change (js "*") with [42%N].
    change (js "_") with [95%N]. change (js "`") with [96%N].
    rewrite (replace_all_plain _ 42 (match_delimited_starts 42 [42%N] 42) text)
      by (apply Hno; set_solver).
    rewrite (replace_all_plain _ 42 (match_delimited_starts 42 [] 42) text)
      by (apply Hno; set_solver).
    rewrite (replace_all_plain _ 95 (match_delimited_starts 95 [] 95) text)
      by (apply Hno; set_solver).
    rewrite (replace_all_plain _ 96 (match_delimited_starts 96 [] 96) text)
      by (apply Hno; set_solver).
    rewrite strip_headings_plain by (apply Hno; set_solver).
    rewrite (replace_all_plain _ 91 match_link_starts text)
      by (apply Hno; set_solver).
    done. }
  split; [done|]. intros Hh Hl. rewrite Hstrip. by apply trim_id.
Qed.

Lemma stripMd_plain_text_witness :
  stripMd (js " Trade and health ") = trim (js " Trade and health ")
  /\ stripMd (js "Trade and health") = js "Trade and health".
Proof.
  split.
  - apply (stripMd_plain_text (js " Trade and health ")).
    apply (bool_decide_unpack _). vm_compute. exact I.
  - apply (stripMd_plain_text (js "Trade and health")).
    + apply (bool_decide_unpack _). vm_compute. exact I.
    + intros c [= <-]. vm_compute. reflexivity.
    + intros c [= <-]. vm_compute. reflexivity.
Defined.

(** X12. What [stripMd] returns neither starts nor ends with white space
    or a line terminator. *)
Theorem stripMd_is_trimmed (text : jsstring) :
  (forall c, head (stripMd text) = Some c -> is_space c = false)
  /\ (forall c, last (stripMd text) = Some c -> is_space c = false).
Proof. unfold stripMd. cbv zeta. apply trim_ends. Qed.

End md.

(** ** The flags of lib/constants.ts *)

Section flags.
Import Js Constants Spec.

(** X13. Every flag of [COUNTRY_FLAGS] spells its own code: for each of
    the two-letter codes it is the pair of regional indicator symbols of the
    code's letters (four UTF-16 code units), and for WHO, the one code that
    is no region, it is the hospital sign U+1F3E5. *)
Theorem flags_spell_their_codes (code : string) (flag : jsstring) :
  COUNTRY_FLAGS !! code = Some flag ->
  (code = "WHO"%string /\ flag = from_code_points [127973%N])
  \/ (String.length code = 2%nat
      /\ flag = flag_of_code code
      /\ length flag = 4%nat).
Proof.
  intros Hlook. apply elem_of_list_to_map_2 in Hlook.
  assert (Hall : Forall (fun e : string * jsstring =>
            (e.1 = "WHO"%string /\ e.2 = from_code_points [127973%N])
            \/ (String.length e.1 = 2%nat
                /\ e.2 = flag_of_code e.1
                /\ length e.2 = 4%nat)) COUNTRY_FLAGS_entries).
  { apply (bool_decide_unpack _). vm_compute. exact I. }
  rewrite Forall_forall in Hall. exact (Hall _ Hlook).
Qed.

Lemma flags_spell_their_codes_witness :
  String.length "JP" = 2%nat
  /\ from_code_points [127471; 127477]%N = flag_of_code "JP"
  /\ length (from_code_points [127471; 127477]%N) = 4%nat.
Proof.
  destruct (flags_spell_their_codes "JP" (from_code_points [127471; 127477]%N))
    as [[Hwho _]|H].
  - vm_compute. reflexivity.
  - discriminate Hwho.
  - exact H.
Defined.

End flags.

(** ** The year of a time value *)

Section year.
Import JsDate.

Lemma DayFromYear_mono y1 y2 : y1 <= y2 -> DayFromYear y1 <= DayFromYear y2.
Proof. intros H. unfold DayFromYear. Z.div_mod_to_equations. lia. Qed.

Lemma YearFromTime_day (t : Z) :
  DayFromYear (YearFromTime t) <= Day t < DayFromYear (YearFromTime t + 1).
Proof.
  unfold YearFromTime. cbv zeta.
  generalize (Day t). intros D.
  destruct (Z.gtb_spec (DayFromYear (1970 + 400 * D / 146097)) D) as [H1|H1].
  - replace (1970 + 400 * D / 146097 - 1 + 1) with (1970 + 400 * D / 146097)
      by lia.
    split; [|lia]. clear H1. unfold DayFromYear. Z.div_mod_to_equations. lia.
  - destruct (Z.leb_spec (DayFromYear (1970 + 400 * D / 146097 + 1)) D)
      as [H2|H2].
    + split; [lia|]. clear H1 H2. unfold DayFromYear.
      Z.div_mod_to_equations. lia.
    + lia.
Qed.

(** The year that [YearFromTime] returns is the one of the standard: the
    largest [y] with [TimeFromYear y <= t]. *)
Lemma YearFromTime_is_the_year (t : Z) :
  TimeFromYear (YearFromTime t) <= t
  /\ forall y, TimeFromYear y <= t -> y <= YearFromTime t.
Proof.
  pose proof (YearFromTime_day t) as [Hlo Hhi].
  assert (Ht : msPerDay * Day t <= t < msPerDay * (Day t + 1)).
  { unfold Day, msPerDay. Z.div_mod_to_equations. lia. }
  unfold TimeFromYear, msPerDay in *. split; [lia|].
  intros y Hy.
  destruct (Z.le_gt_cases y (YearFromTime t)) as [|Hgt]; [done|].
  pose proof (DayFromYear_mono (YearFromTime t + 1) y ltac:(lia)). lia.
Qed.
End year.

(** ** The order of dates in the store *)

Section date_order.
Import Js Runtime Sqlite Digest Spec Calendar.

Example iso_text_sample : iso_text 2024 5 1 = "2024-05-01"%string.
Proof. vm_compute. reflexivity. Qed.

Lemma digit_at_compare a b i :
  Ascii.compare (ascii_of_N (digit_at a i)) (ascii_of_N (digit_at b i))
  = ((a / 10 ^ i) mod 10 ?= (b / 10 ^ i) mod 10).
Proof.
  unfold Ascii.compare, digit_at.
  pose proof (Z.mod_pos_bound (a / 10 ^ i) 10 ltac:(lia)).
  pose proof (Z.mod_pos_bound (b / 10 ^ i) 10 ltac:(lia)).
  rewrite !N_ascii_embedding by lia.
  rewrite Z2N.inj_compare by lia.
  apply Z.add_compare_mono_l.
Qed.

Lemma four_digits y :
  0 <= y <= 9999 ->
  y = 1000 * ((y / 10 ^ 3) mod 10) + 100 * ((y / 10 ^ 2) mod 10)
      + 10 * ((y / 10 ^ 1) mod 10) + (y / 10 ^ 0) mod 10.
Proof.
  intros Hy. change (10 ^ 3) with 1000. change (10 ^ 2) with 100.
  change (10 ^ 1) with 10. change (10 ^ 0) with 1.
  Z.div_mod_to_equations. lia.
Qed.

Lemma two_digits v :
  0 <= v <= 99 -> v = 10 * ((v / 10 ^ 1) mod 10) + (v / 10 ^ 0) mod 10.
Proof.
  intros Hy. change (10 ^ 1) with 10. change (10 ^ 0) with 1.
  Z.div_mod_to_equations. lia.
Qed.

(** Dates in [YYYY-MM-DD] form compare in the BINARY collation as their
    days do in the calendar. *)
Lemma iso_text_order y1 m1 d1 y2 m2 d2 :
  valid_date y1 m1 d1 -> valid_date y2 m2 d2 ->
  text_le (iso_text y1 m1 d1) (iso_text y2 m2 d2)
  <-> calendar_le (y1, m1, d1) (y2, m2, d2).
Proof.
  intros (Hy1 & Hm1 & Hd1) (Hy2 & Hm2 & Hd2).
  pose proof (days_in_month_bounds y1 m1). pose proof (days_in_month_bounds y2 m2).
  pose proof (four_digits y1 Hy1) as Ey1. pose proof (four_digits y2 Hy2) as Ey2.
  pose proof (two_digits m1 ltac:(lia)) as Em1.
  pose proof (two_digits m2 ltac:(lia)) as Em2.
  pose proof (two_digits d1 ltac:(lia)) as Ed1.
  pose proof (two_digits d2 ltac:(lia)) as Ed2.
  unfold text_le, String.leb, iso_text, iso_date, calendar_le.
  cbn [map string_of_list_ascii String.compare].
  rewrite !digit_at_compare, !ascii_compare_refl.
  repeat match goal with
  | |- context [(?v / 10 ^ ?i) mod 10] =>
      let Hb := fresh "Hb" in
      pose proof (Z.mod_pos_bound (v / 10 ^ i) 10 ltac:(lia)) as Hb;
      generalize dependent ((v / 10 ^ i) mod 10); intros
  end.
  repeat match goal with
  | |- context [?a ?= ?b] => destruct (Z.compare_spec a b)
  end; split; intros; try done; try lia.
Qed.

Lemma StronglySorted_lookup_lt {A} (R : relation A) (l : list A) :
  StronglySorted R l ->
  forall i j x y, (i < j)%nat -> l !! i = Some x -> l !! j = Some y -> R x y.
Proof.
  induction 1 as [|a l Hl IH Ha]; intros i j x y Hij Hi Hj; [done|].
  destruct j as [|j]; [lia|]. simpl in Hj.
  destruct i as [|i]; simpl in Hi.
  - simplify_eq. rewrite List.Forall_forall in Ha. apply Ha.
    apply list_elem_of_In. by eapply list_elem_of_lookup_2.
  - apply (IH i j); [lia|done|done].
Qed.

(** X14. Dates in [YYYY-MM-DD] form sort by day. Among such dates, the
    digest that [getLatestDigest] returns is of a day no earlier than the
    day of any other row, and [getAllDigestDates] lists later days before
    earlier ones. *)
Theorem valid_dates_come_latest_first (w : World) :
  (forall page r y m d y' m' d',
     (getLatestDigest w).1 = Returned (Some page) ->
     r ∈ daily_digest (disk w) ->
     DailyDigest.date (DigestPage.digest page) = iso_text y m d ->
     DailyDigest.date r = iso_text y' m' d' ->
     valid_date y m d -> valid_date y' m' d' ->
     calendar_le (y', m', d') (y, m, d))
  /\ (forall dates i j y m d y' m' d',
     (getAllDigestDates w).1 = Returned dates ->
     (i < j)%nat ->
     dates !! i = Some (iso_text y m d) ->
     dates !! j = Some (iso_text y' m' d') ->
     valid_date y m d -> valid_date y' m' d' ->
     calendar_le (y', m', d') (y, m, d)).
Proof.
  split.
  - intros page r y m d y' m' d' Hrun Hr Hdate Hdate' Hv Hv'.
    rewrite getLatestDigest_run in Hrun. simpl in Hrun.
    destruct (head _) as [row|] eqn:Hhd; simplify_eq/=.
    apply order_by_text_desc_head in Hhd as [_ Hmax].
    apply iso_text_order; [done|done|].
    rewrite <- Hdate, <- Hdate'. by apply Hmax.
  - intros dates i j y m d y' m' d' Hrun Hij Hi Hj Hv Hv'.
    rewrite getAllDigestDates_run in Hrun. simpl in Hrun. simplify_eq.
    apply iso_text_order; [done|done|].
    apply (StronglySorted_lookup_lt (flip text_le) _
             (order_by_text_desc_sorted DailyDigest.date (daily_digest (disk w)))
             i j _ _ Hij Hi Hj).
Qed.

Lemma valid_dates_come_latest_first_witness :
  calendar_le (2024, 5, 1) (2024, 5, 2).
Proof.
  assert (H1 : valid_date 2024 5 2) by (unfold valid_date, calendar_day; simpl; lia).
  assert (H2 : valid_date 2024 5 1) by (unfold valid_date, calendar_day; simpl; lia).
  apply (proj1 (valid_dates_come_latest_first Sample.world)
           (page_in Sample.db Sample.day2) Sample.day1 2024 5 2 2024 5 1).
  - vm_compute. reflexivity.
  - left.
  - vm_compute. reflexivity.
  - vm_compute. reflexivity.
  - exact H1.
  - exact H2.
Defined.

End date_order.
